(** * Shallow embedding of the beyondworks-assistant core (Python)

    Modules covered:
    - core/openai_client.py  : chat_with_tools_multi, classify_domain
    - core/ai_provider.py    : OpenAIProvider, GeminiProvider, FallbackProvider
    - core/session.py        : get_session, update_session, pending actions
    - core/memory.py         : add_rule
    - assistant.py           : handle_resolve_action

    Python values that travel through JSON are modelled by [json]; Python
    exceptions by [exn]; a fallible computation by [Exc]. A Python [str] is
    a Rocq [string], one [ascii] per character (the Korean message
    constants are kept as their UTF-8 text). *)

From Stdlib Require Import String Ascii List Bool ZArith QArith Lia.
From Stdlib Require Import Permutation.
From Stdlib Require Import DecimalString DecimalNat.
Import ListNotations.
Open Scope nat_scope.
Open Scope string_scope.
Set Warnings "-register-all".

(** ** Python values and exceptions *)

Inductive json : Type :=
| JNull
| JBool (b : bool)
| JNum (q : Q)
| JStr (s : string)
| JArr (l : list json)
| JObj (kv : list (string * json)).

Inductive exn : Type :=
| JSONDecodeError
| UnicodeDecodeError
| KeyError
| IndexError
| TypeError
| ValueError
| AttributeError
| UnboundLocalError
| URLError (reason : string)
| HTTPError (code : Z).

Definition Exc (A : Type) : Type := sum exn A.
Definition ret {A} (a : A) : Exc A := inr a.
Definition raise {A} (e : exn) : Exc A := inl e.
Definition bind {A B} (m : Exc A) (k : A -> Exc B) : Exc B :=
  match m with inl e => inl e | inr a => k a end.
Notation "x <- m ;; k" := (bind m (fun x => k))
  (at level 61, m at next level, right associativity).

(** Python truthiness of a JSON value. *)
Definition truthy (v : json) : bool :=
  match v with
  | JNull => false
  | JBool b => b
  | JNum q => negb (Qeq_bool q 0)
  | JStr s => negb (String.eqb s "")
  | JArr l => negb (Nat.eqb (length l) 0)
  | JObj kv => negb (Nat.eqb (length kv) 0)
  end.

(** A Python dict as an association list in insertion order. *)
Fixpoint dget {A} (k : string) (d : list (string * A)) : option A :=
  match d with
  | [] => None
  | (k', v) :: d' => if String.eqb k k' then Some v else dget k d'
  end.

(** [d[k] = v]: replaces in place when present, appends otherwise. *)
Fixpoint dset {A} (k : string) (v : A) (d : list (string * A)) : list (string * A) :=
  match d with
  | [] => [(k, v)]
  | (k', v') :: d' => if String.eqb k k' then (k, v) :: d' else (k', v') :: dset k v d'
  end.

(** [d.get(k, default)] on an arbitrary value: only a dict has [.get]. *)
Definition py_get (v : json) (k : string) (default : json) : Exc json :=
  match v with
  | JObj kv => ret (match dget k kv with Some x => x | None => default end)
  | _ => raise AttributeError
  end.

(** [v[k]] with a string key. *)
Definition py_getitem (v : json) (k : string) : Exc json :=
  match v with
  | JObj kv => match dget k kv with Some x => ret x | None => raise KeyError end
  | JArr _ | JStr _ => raise TypeError
  | _ => raise TypeError
  end.

(** [v[i]] with an integer index. *)
Definition py_index (v : json) (i : nat) : Exc json :=
  match v with
  | JArr l => match nth_error l i with Some x => ret x | None => raise IndexError end
  | JObj _ => raise KeyError
  | JStr s => match String.get i s with
              | Some c => ret (JStr (String c EmptyString))
              | None => raise IndexError end
  | _ => raise TypeError
  end.

(** Python [==] on JSON values; dicts compare by key set and values. *)
Fixpoint json_eqb (a b : json) : bool :=
  match a, b with
  | JNull, JNull => true
  | JBool x, JBool y => Bool.eqb x y
  | JNum x, JNum y => Qeq_bool x y
  | JBool x, JNum y | JNum y, JBool x => Qeq_bool (if x then 1 else 0) y
  | JStr x, JStr y => String.eqb x y
  | JArr xs, JArr ys =>
      (fix go (xs ys : list json) : bool :=
         match xs, ys with
         | [], [] => true
         | x :: xs', y :: ys' => json_eqb x y && go xs' ys'
         | _, _ => false
         end) xs ys
  | JObj xs, JObj ys =>
      Nat.eqb (length xs) (length ys) &&
      (fix go (xs : list (string * json)) : bool :=
         match xs with
         | [] => true
         | (k, v) :: xs' =>
             match dget k ys with
             | Some w => json_eqb v w && go xs'
             | None => false
             end
         end) xs
  | _, _ => false
  end.

(** ** Python string helpers (ASCII part of [str] methods) *)

Fixpoint startswith (p s : string) : bool :=
  match p, s with
  | EmptyString, _ => true
  | String c p', String d s' => Ascii.eqb c d && startswith p' s'
  | String _ _, EmptyString => false
  end.

(** [sub in s] *)
Fixpoint contains (sub s : string) : bool :=
  startswith sub s ||
  match s with
  | EmptyString => false
  | String _ s' => contains sub s'
  end.

Definition sentinel : string := "AI 응답 오류:".

(** ** Clock

    [datetime.now().isoformat()] and [datetime.fromisoformat]: a time stamp
    is a number of seconds, written in decimal. *)

Definition isoformat (t : nat) : string := NilEmpty.string_of_uint (Nat.to_uint t).

Definition fromisoformat (s : string) : option nat :=
  if String.eqb s "" then None
  else option_map Nat.of_uint (NilEmpty.uint_of_string s).

(** [s[-k:]] on a list. *)
Definition py_tail {A} (k : nat) (l : list A) : list A := skipn (length l - k) l.

(** [s[:k]] on a string. *)
Definition py_head (k : nat) (s : string) : string := substring 0 k s.

(** ** Rendering and slicing used by the f-strings and [[:5]] *)

Definition digits_of_pos (p : positive) : string :=
  NilEmpty.string_of_uint (Nat.to_uint (Pos.to_nat p)).

Definition z_repr (z : Z) : string :=
  match z with
  | Z0 => "0"
  | Zpos p => digits_of_pos p
  | Zneg p => "-" ++ digits_of_pos p
  end.

(** [str(v)] as an f-string renders it; non-integral numbers are written
    as a fraction. *)
Fixpoint py_str (v : json) : string :=
  match v with
  | JNull => "None"
  | JBool true => "True"
  | JBool false => "False"
  | JNum q => if Pos.eqb (Qden q) 1 then z_repr (Qnum q)
              else z_repr (Qnum q) ++ "/" ++ digits_of_pos (Qden q)
  | JStr s => s
  | JArr l =>
      "[" ++ (fix go (l : list json) : string :=
                match l with
                | [] => ""
                | [x] => py_str x
                | x :: l' => py_str x ++ ", " ++ go l'
                end) l ++ "]"
  | JObj kv =>
      "{" ++ (fix go (kv : list (string * json)) : string :=
                match kv with
                | [] => ""
                | [(k, x)] => "'" ++ k ++ "': " ++ py_str x
                | (k, x) :: kv' => "'" ++ k ++ "': " ++ py_str x ++ ", " ++ go kv'
                end) kv ++ "}"
  end.

(** [v[:k]] *)
Definition py_slice (k : nat) (v : json) : Exc json :=
  match v with
  | JArr l => ret (JArr (firstn k l))
  | JStr s => ret (JStr (py_head k s))
  | _ => raise TypeError
  end.

(** [v[-k:]] *)
Definition py_slice_tail (k : nat) (v : json) : Exc json :=
  match v with
  | JArr l => ret (JArr (py_tail k l))
  | JStr s => ret (JStr (substring (String.length s - k) k s))
  | _ => raise TypeError
  end.

(** [a or b] *)
Definition py_or (a b : json) : json := if truthy a then a else b.

(** [d[k] = x] on an arbitrary value. *)
Definition py_setitem (v : json) (k : string) (x : json) : Exc json :=
  match v with
  | JObj kv => ret (JObj (dset k x kv))
  | _ => raise TypeError
  end.

(** [lst.append(x)] *)
Definition py_append (v : json) (x : json) : Exc json :=
  match v with
  | JArr l => ret (JArr (l ++ [x])%list)
  | _ => raise AttributeError
  end.

(** ** core/memory.py *)

Module Memory.

Definition MAX_RULES_PER_DOMAIN : nat := 50.

Record rule := mk_rule {
  r_text : json;
  r_category : json;
  r_created_at : string;
  r_used_count : nat
}.

Record memory := mk_memory {
  m_rules : list (string * list rule);
  m_corrections : list json;
  m_updated_at : string
}.

(** The memory file: absent, unreadable/undecodable (both fall back to the
    default), or a stored memory document. *)
Inductive memfile := MAbsent | MCorrupt | MStored (m : memory).

Definition _load_memory (f : memfile) : memory :=
  match f with
  | MStored m => m
  | _ => mk_memory [] [] ""
  end.

Definition _save_memory (m : memory) (now : nat) : memfile :=
  MStored (mk_memory (m_rules m) (m_corrections m) (isoformat now)).

Record add_result := mk_add_result {
  ar_success : bool;
  ar_reason : option string;
  ar_count : nat
}.

(** [add_rule(domain, rule_text, category)]; returns the result dict and
    the memory file afterwards. *)
Definition add_rule (f : memfile) (domain : string) (rule_text category : json)
    (now : nat) : add_result * memfile :=
  let memory := _load_memory f in
  let rules0 := m_rules memory in
  let rules1 := match dget domain rules0 with
                | Some _ => rules0
                | None => dset domain [] rules0
                end in
  let lst := match dget domain rules1 with Some l => l | None => [] end in
  if existsb (fun existing => json_eqb (r_text existing) rule_text) lst then
    (mk_add_result false (Some "duplicate") (length lst), f)
  else
    let lst1 := (lst ++ [mk_rule rule_text category (isoformat now) 0])%list in
    let lst2 := if Nat.ltb MAX_RULES_PER_DOMAIN (length lst1)
                then py_tail MAX_RULES_PER_DOMAIN lst1 else lst1 in
    let memory' := mk_memory (dset domain lst2 rules1) (m_corrections memory)
                             (m_updated_at memory) in
    (mk_add_result true None (length lst2), _save_memory memory' now).

(** Number of rules stored for a domain. *)
Definition rule_count (f : memfile) (domain : string) : nat :=
  match dget domain (m_rules (_load_memory f)) with Some l => length l | None => 0 end.

Record remove_result := mk_remove_result {
  rm_success : bool;
  rm_removed : option json;
  rm_reason : option string
}.

(** [remove_rule(domain, rule_index)]: [rules.pop(rule_index)] mutates the
    list held in the memory dict, which is then saved. *)
Definition remove_rule (f : memfile) (domain : string) (rule_index : Z) (now : nat)
    : remove_result * memfile :=
  let memory := _load_memory f in
  let rules := match dget domain (m_rules memory) with Some l => l | None => [] end in
  if andb (Z.leb 0 rule_index) (Z.ltb rule_index (Z.of_nat (length rules))) then
    let i := Z.to_nat rule_index in
    match nth_error rules i with
    | Some removed =>
        let rules' := (firstn i rules ++ skipn (S i) rules)%list in
        (mk_remove_result true (Some (r_text removed)) None,
         _save_memory (mk_memory (dset domain rules' (m_rules memory))
                                 (m_corrections memory) (m_updated_at memory)) now)
    | None => (mk_remove_result false None (Some "invalid index"), f)
    end
  else (mk_remove_result false None (Some "invalid index"), f).

(** [get_rules(domain, include_global)] *)
Definition get_rules (f : memfile) (domain : string) (include_global : bool) : list rule :=
  let all := m_rules (_load_memory f) in
  let rules := match dget domain all with Some l => l | None => [] end in
  if andb include_global (negb (String.eqb domain "global"))
  then (rules ++ match dget "global" all with Some l => l | None => [] end)%list
  else rules.

Definition newline : string := String (ascii_of_nat 10) EmptyString.

(** The [prefix] dict lookup: a list or dict category is unhashable. *)
Definition rule_prefix (cat : json) : Exc string :=
  match cat with
  | JStr "mapping" => ret "매핑"
  | JStr "preference" => ret "선호"
  | JStr "correction" => ret "수정"
  | JStr "general" => ret "규칙"
  | JArr _ | JObj _ => raise TypeError
  | _ => ret "규칙"
  end.

Definition rule_line (r : rule) : Exc string :=
  prefix <- rule_prefix (r_category r) ;;
  ret ("- [" ++ prefix ++ "] " ++ py_str (r_text r)).

Fixpoint rule_lines (rules : list rule) : Exc (list string) :=
  match rules with
  | [] => ret []
  | r :: rs => l <- rule_line r ;; ls <- rule_lines rs ;; ret (l :: ls)
  end.

(** [r["used_count"] = r.get("used_count", 0) + 1] on every rule of a
    domain, in place. *)
Definition bump (r : rule) : rule :=
  mk_rule (r_text r) (r_category r) (r_created_at r) (S (r_used_count r)).

Definition bump_domain (domain : string) (all : list (string * list rule))
    : list (string * list rule) :=
  match dget domain all with
  | Some l => dset domain (map bump l) all
  | None => all
  end.

(** [get_rules_as_prompt(domain)]: the prompt block, and the memory file
    with the usage counts bumped. *)
Definition get_rules_as_prompt (f : memfile) (domain : string) (now : nat)
    : Exc (string * memfile) :=
  match get_rules f domain true with
  | [] => ret ("", f)
  | rules =>
      lines <- rule_lines rules ;;
      let header := newline ++ newline ++ "## 학습된 규칙 (사용자가 가르쳐준 내용)" in
      let memory := _load_memory f in
      let all1 := bump_domain domain (m_rules memory) in
      let all2 := if negb (String.eqb domain "global") then bump_domain "global" all1
                  else all1 in
      ret (String.concat newline (header :: lines),
           _save_memory (mk_memory all2 (m_corrections memory) (m_updated_at memory)) now)
  end.


End Memory.

(** ** core/session.py *)

Module Session.

Definition MAX_MESSAGES : nat := 20.
Definition DEFAULT_TTL : Z := 30.

(** A session file: absent, not valid UTF-8, not valid JSON, or a JSON
    document. *)
Inductive sfile := FAbsent | FUndecodable | FMalformed | FJson (v : json).

(** The directory of session files, by path. *)
Definition fstore := string -> sfile.

Definition fs_write (fs : fstore) (path : string) (v : json) : fstore :=
  fun p => if String.eqb p path then FJson v else fs p.

(** [s.replace("/", "_")] *)
Fixpoint replace_slash (s : string) : string :=
  match s with
  | EmptyString => EmptyString
  | String c s' => String (if Ascii.eqb c "/"%char then "_"%char else c) (replace_slash s')
  end.

(** [session_scope or "default"] *)
Definition or_default (scope : string) : string :=
  if String.eqb scope "" then "default" else scope.

Definition _session_path (user_id channel_id session_scope : string) : string :=
  let safe_scope := replace_slash (or_default session_scope) in
  let safe_name := replace_slash (safe_scope ++ "_" ++ user_id ++ "_" ++ channel_id) in
  "data/sessions/" ++ safe_name ++ ".json".

Definition _empty_session (user_id channel_id session_scope : string) (now : nat) : json :=
  JObj [("user_id", JStr user_id); ("channel_id", JStr channel_id);
        ("session_scope", JStr (or_default session_scope)); ("domain", JStr "");
        ("messages", JArr []); ("pending_action", JNull);
        ("created_at", JStr (isoformat now)); ("updated_at", JStr (isoformat now))].

(** [_is_expired]: [ValueError] and [TypeError] count as expired; the
    [.get] of a value that is not a dict raises [AttributeError]. *)
Definition _is_expired (session : json) (ttl_minutes : Z) (now : nat) : Exc bool :=
  v <- py_get session "updated_at" (JStr "") ;;
  match v with
  | JStr s =>
      match fromisoformat s with
      | None => ret true
      | Some updated => ret (Z.gtb (Z.of_nat now - Z.of_nat updated) (60 * ttl_minutes))
      end
  | _ => ret true
  end.

(** The [except (json.JSONDecodeError, KeyError)] clause of [get_session]. *)
Definition caught_by_get_session (e : exn) : bool :=
  match e with JSONDecodeError | KeyError => true | _ => false end.

Definition get_session (user_id channel_id : string) (ttl_minutes : Z)
    (session_scope : string) (now : nat) (fs : fstore) : Exc json :=
  let path := _session_path user_id channel_id session_scope in
  let empty := _empty_session user_id channel_id session_scope now in
  match fs path with
  | FAbsent => ret empty
  | FUndecodable => raise UnicodeDecodeError
  | FMalformed => ret empty
  | FJson session =>
      match (expired <- _is_expired session ttl_minutes now ;;
             if expired then ret empty
             else py_setitem session "session_scope" (JStr (or_default session_scope))) with
      | inl e => if caught_by_get_session e then ret empty else raise e
      | inr s => ret s
      end
  end.

(** [(session.get("session_scope", "default") or "default")] as a [str]. *)
Definition scope_of (v : json) : Exc string :=
  if negb (truthy v) then ret "default"
  else match v with JStr s => ret s | _ => raise AttributeError end.

Definition _save_session (session : json) (fs : fstore) : Exc fstore :=
  u <- py_getitem session "user_id" ;;
  c <- py_getitem session "channel_id" ;;
  sc <- py_get session "session_scope" (JStr "default") ;;
  scope <- scope_of sc ;;
  ret (fs_write fs (_session_path (py_str u) (py_str c) scope) session).

Definition update_session (user_id channel_id : string) (domain : json)
    (user_msg assistant_msg : string) (ttl_minutes : Z) (session_scope : string)
    (now : nat) (fs : fstore) : Exc fstore :=
  session <- get_session user_id channel_id ttl_minutes session_scope now fs ;;
  s1 <- py_setitem session "domain" domain ;;
  s2 <- py_setitem s1 "session_scope" (JStr (or_default session_scope)) ;;
  m0 <- py_getitem s2 "messages" ;;
  m1 <- py_append m0 (JObj [("role", JStr "user"); ("content", JStr user_msg)]) ;;
  m2 <- py_append m1 (JObj [("role", JStr "assistant");
                            ("content", JStr (py_head 500 assistant_msg))]) ;;
  m3 <- py_slice_tail MAX_MESSAGES m2 ;;
  s3 <- py_setitem s2 "messages" m3 ;;
  s4 <- py_setitem s3 "updated_at" (JStr (isoformat now)) ;;
  _save_session s4 fs.

Definition set_pending_action (user_id channel_id : string) (action : json)
    (ttl_minutes : Z) (session_scope : string) (now : nat) (fs : fstore) : Exc fstore :=
  session <- get_session user_id channel_id ttl_minutes session_scope now fs ;;
  s1 <- py_setitem session "session_scope" (JStr (or_default session_scope)) ;;
  s2 <- py_setitem s1 "pending_action" action ;;
  s3 <- py_setitem s2 "updated_at" (JStr (isoformat now)) ;;
  _save_session s3 fs.

Definition get_and_clear_pending_action (user_id channel_id : string) (ttl_minutes : Z)
    (session_scope : string) (now : nat) (fs : fstore) : Exc (json * fstore) :=
  session <- get_session user_id channel_id ttl_minutes session_scope now fs ;;
  s1 <- py_setitem session "session_scope" (JStr (or_default session_scope)) ;;
  action <- py_get s1 "pending_action" JNull ;;
  if truthy action then
    s2 <- py_setitem s1 "pending_action" JNull ;;
    s3 <- py_setitem s2 "updated_at" (JStr (isoformat now)) ;;
    fs' <- _save_session s3 fs ;;
    ret (action, fs')
  else ret (action, fs).

(** A conversation turn: the clock, the domain and the two messages passed
    to [update_session]. *)
Record turn := mk_turn {
  t_now : nat;
  t_domain : json;
  t_user : string;
  t_assistant : string
}.

(** [update_session] called once per turn, in order, on one key. *)
Fixpoint update_sessions (user_id channel_id : string) (ttl_minutes : Z)
    (session_scope : string) (turns : list turn) (fs : fstore) : Exc fstore :=
  match turns with
  | [] => ret fs
  | t :: ts =>
      fs' <- update_session user_id channel_id (t_domain t) (t_user t) (t_assistant t)
                            ttl_minutes session_scope (t_now t) fs ;;
      update_sessions user_id channel_id ttl_minutes session_scope ts fs'
  end.

(** Each turn comes within the TTL of the one before. *)
Fixpoint within_ttl (ttl_minutes : Z) (turns : list turn) : bool :=
  match turns with
  | t1 :: ((t2 :: _) as rest) =>
      Z.leb (Z.of_nat (t_now t2) - Z.of_nat (t_now t1)) (60 * ttl_minutes) &&
      within_ttl ttl_minutes rest
  | _ => true
  end.

(** The window the spec describes: per turn, a user entry then an
    assistant entry cut to 500 characters, then the last 20 entries. *)
Definition turn_messages (t : turn) : list json :=
  [JObj [("role", JStr "user"); ("content", JStr (t_user t))];
   JObj [("role", JStr "assistant"); ("content", JStr (py_head 500 (t_assistant t)))]].

Definition window_step (acc : list json) (t : turn) : list json :=
  py_tail MAX_MESSAGES (acc ++ turn_messages t)%list.

Definition window (turns : list turn) : list json := fold_left window_step turns [].

(** [clear_session(user_id, channel_id, session_scope)] *)
Definition clear_session (user_id channel_id session_scope : string) (now : nat)
    (fs : fstore) : Exc fstore :=
  _save_session (_empty_session user_id channel_id session_scope now) fs.

End Session.

(** ** assistant.py: resolving a pending action *)

Module Assistant.
Import Session.

Definition NO_PENDING_MSG : string := "처리할 대기 작업이 없습니다.".
Definition FUNCTIONS_PREFIX : string := "functions.".

Record resolve_result := mk_rr { rr_response : string; rr_domain : json }.

(** [_get_domain_exec_tool(domain)]: the domains that have an executor. *)
Definition _get_domain_exec_tool (domain : json) : option string :=
  match domain with
  | JStr d =>
      if existsb (String.eqb d)
           ["finance"; "schedule"; "content"; "travel"; "tools"; "business"; "workspace"]
      then Some d else None
  | _ => None
  end.

(** [if tool_name.startswith("functions."): tool_name = tool_name[len("functions."):]] *)
Definition strip_functions_prefix (tool_name : string) : string :=
  if startswith FUNCTIONS_PREFIX tool_name
  then substring (String.length FUNCTIONS_PREFIX)
                 (String.length tool_name - String.length FUNCTIONS_PREFIX) tool_name
  else tool_name.

Section Resolve.

(** [_exec_tool] of a domain: [exec_tool domain tool_name args]. *)
Variable exec_tool : string -> string -> json -> string.

(** The part of [handle_resolve_action] after a pending action was found.
    Returns the result, the executor invocation [(tool_name, args)] if
    any, and the session files. *)
Definition resolve_pending (value user_id channel_id : string) (session_ttl : Z)
    (session_scope : string) (now : nat) (action : json) (fs : fstore)
    : Exc (resolve_result * option (string * json) * fstore) :=
  session <- get_session user_id channel_id session_ttl session_scope now fs ;;
  domain <- py_get session "domain" (JStr "schedule") ;;
  tool0 <- py_get action "tool" (JStr "") ;;
  tool_name <- (match tool0 with
                | JStr t => ret (strip_functions_prefix t)
                | _ => raise AttributeError
                end) ;;
  args0 <- py_get action "args" (JObj []) ;;
  field_name <- py_get action "field_name" (JStr "") ;;
  args <- (match field_name with
           | JStr f => py_setitem args0 f (JStr value)
           | _ => raise TypeError
           end) ;;
  match _get_domain_exec_tool domain with
  | None =>
      ret (mk_rr ("도메인 '" ++ py_str domain ++ "'의 도구를 찾을 수 없습니다.") domain,
           None, fs)
  | Some d =>
      let resp := exec_tool d tool_name args in
      fs' <- update_session user_id channel_id domain ("[버튼 선택: " ++ value ++ "]") resp
                            session_ttl session_scope now fs ;;
      ret (mk_rr resp domain, Some (tool_name, args), fs')
  end.

Definition handle_resolve_action (value user_id channel_id : string) (session_ttl : Z)
    (session_scope : string) (now : nat) (fs : fstore)
    : Exc (resolve_result * option (string * json) * fstore) :=
  p <- get_and_clear_pending_action user_id channel_id session_ttl session_scope now fs ;;
  let (action, fs1) := p in
  if negb (truthy action) then ret (mk_rr NO_PENDING_MSG (JStr "unknown"), None, fs1)
  else resolve_pending value user_id channel_id session_ttl session_scope now action fs1.

End Resolve.

(** The options [_parse_optional_args] returns with the cleaned argv. *)
Record cli_opts := mk_opts {
  o_cleaned : list string;
  o_image_urls : list json;
  o_session_ttl : Z;
  o_session_scope : string
}.

Section ParseArgs.

(** [json.loads]: [None] is [json.JSONDecodeError]. *)
Variable json_loads : string -> option json.
(** [int(s)] on a [str]: [None] is [ValueError]. *)
Variable py_int : string -> option Z.

(** The [while i < len(argv)] loop, from position [i] on: a flag with a
    value after it consumes two entries, anything else is kept. *)
Fixpoint parse_args_from (argv : list string) (o : cli_opts) : cli_opts :=
  match argv with
  | [] => o
  | a :: rest =>
      let keep := mk_opts (o_cleaned o ++ [a])%list (o_image_urls o) (o_session_ttl o)
                          (o_session_scope o) in
      match rest with
      | [] => parse_args_from rest keep
      | v :: rest' =>
          if String.eqb a "--images" then
            let urls := match json_loads v with Some (JArr l) => l | _ => [] end in
            parse_args_from rest' (mk_opts (o_cleaned o) urls (o_session_ttl o)
                                           (o_session_scope o))
          else if String.eqb a "--session-ttl" then
            let ttl := match py_int v with Some n => Z.max 1 n | None => 30%Z end in
            parse_args_from rest' (mk_opts (o_cleaned o) (o_image_urls o) ttl
                                           (o_session_scope o))
          else if String.eqb a "--session-scope" then
            parse_args_from rest' (mk_opts (o_cleaned o) (o_image_urls o) (o_session_ttl o)
                                           (or_default v))
          else parse_args_from rest keep
      end
  end.

Definition _parse_optional_args (argv : list string) : cli_opts :=
  parse_args_from argv (mk_opts [] [] 30 "default").

End ParseArgs.

(** An argument that is none of the three option flags. *)
Definition not_flag (a : string) : Prop :=
  a <> "--images" /\ a <> "--session-ttl" /\ a <> "--session-scope".

End Assistant.

(** ** core/openai_client.py: [resolve_image_urls] *)

Module Images.

Section Resolve.

(** The two download attempts of [_download_slack_image(url, bot_token)]:
    [Some (content_type, b64)] when one of them returns an image. *)
Variable fetch : string -> string -> option (string * string).

Definition _download_slack_image (url bot_token : string) : option string :=
  match fetch url bot_token with
  | Some (content_type, b64) => Some ("data:" ++ content_type ++ ";base64," ++ b64)
  | None => None
  end.

(** The [for url in image_urls[:5]] loop; [url.startswith] on a value
    that is not a [str] raises [AttributeError]. *)
Fixpoint resolve_each (bot_token : string) (urls : list json) : Exc (list string) :=
  match urls with
  | [] => ret []
  | u :: us =>
      if negb (truthy u) then resolve_each bot_token us
      else
        r <- (match u with
              | JStr url =>
                  if startswith "data:" url then ret [url]
                  else if contains "files.slack.com" url then
                    if String.eqb bot_token "" then ret []
                    else match _download_slack_image url bot_token with
                         | Some data_uri => if String.eqb data_uri "" then ret [] else ret [data_uri]
                         | None => ret []
                         end
                  else ret [url]
              | _ => raise AttributeError
              end) ;;
        rest <- resolve_each bot_token us ;;
        ret (r ++ rest)%list
  end.

(** [resolve_image_urls(image_urls)], [bot_token] being
    [os.environ.get("SLACK_BOT_TOKEN", "")]. *)
Definition resolve_image_urls (image_urls : list json) (bot_token : string)
    : Exc (list string) :=
  match image_urls with
  | [] => ret []
  | _ => resolve_each bot_token (firstn 5 image_urls)
  end.

End Resolve.

(** A truthy entry that is not a string. *)
Definition not_str (u : json) : Prop := truthy u = true /\ forall s, u <> JStr s.

End Images.

(** ** core/openai_client.py: the multi-round tool loop *)

Module Agent.

Definition REQUEST_USER_CHOICE : string := "request_user_choice".
Definition LEARN_RULE : string := "learn_rule".

(** A tool call as the providers return it: [{id, name, arguments}]. *)
Record tool_call := mk_tc { tc_id : json; tc_name : json; tc_args : json }.

(** A provider result [{content, tool_calls}]; [pr_content = None] when the
    dict has no "content" key. *)
Record presult := mk_presult {
  pr_content : option json;
  pr_tool_calls : list tool_call
}.

(** [result.get("content", default)] *)
Definition content_or (r : presult) (default : json) : json :=
  match pr_content r with Some c => c | None => default end.

(** [result.get("content")] *)
Definition content_get (r : presult) : json := content_or r JNull.

(** The provider interface ([AIProvider.chat] docstring): content is a
    string, or None. *)
Definition content_text_ok (r : presult) : bool :=
  match pr_content r with
  | None | Some JNull | Some (JStr _) => true
  | Some _ => false
  end.

(** Tool-call arguments are JSON objects. *)
Definition args_are_dicts (tcs : list tool_call) : bool :=
  forallb (fun tc => match tc_args tc with JObj _ => true | _ => false end) tcs.

(** Entries of [full_messages]. *)
Inductive message :=
| MsgJson (m : json)
| MsgAssistant (content : json) (calls : list tool_call)
| MsgTool (tool_call_id : json) (content : string).

Record learning_event := mk_le {
  le_rule : json;
  le_category : json;
  le_domain : string;
  le_created_at : string;
  le_status : string
}.

Record interactive := mk_inter {
  i_question : json;
  i_options : json;
  i_action_id_prefix : string;
  i_pending_action : json
}.

Record chat_result := mk_cr {
  cr_response : string;
  cr_interactive : option interactive;
  cr_learning_events : list learning_event
}.

(** The state threaded through the loop: [full_messages],
    [learning_events], the rule memory file, and the calls made so far to
    the provider and to the tool executor; [ls_result] is the variable
    [result] ([None] while unbound). *)
Record lstate := mk_ls {
  ls_messages : list message;
  ls_events : list learning_event;
  ls_memory : Memory.memfile;
  ls_provider_calls : nat;
  ls_exec_calls : list (json * json);
  ls_result : option presult
}.

Definition is_learn (tc : tool_call) : bool := json_eqb (tc_name tc) (JStr LEARN_RULE).
Definition is_choice (tc : tool_call) : bool := json_eqb (tc_name tc) (JStr REQUEST_USER_CHOICE).

Section Loop.

(** The provider's [chat]: its n-th call on the current messages. *)
Variable provider : nat -> list message -> presult.
(** [tool_executor(name, args)]: its n-th call. *)
Variable tool_executor : nat -> json -> json -> string.
(** The regular-expression part of [strip_markdown] (after its
    [if not text: return ""] guard). *)
Variable strip_markdown_body : string -> string.

Definition strip_markdown (v : json) : Exc string :=
  if negb (truthy v) then ret ""
  else match v with
       | JStr s => ret (strip_markdown_body s)
       | _ => raise TypeError
       end.

(** The learn_rule block: the first learn_rule call is run against Rule
    Memory, then every learn_rule call is dropped from the batch.
    [inl] is a terminal result, [inr] the remaining batch. *)
Definition handle_learn_rule (domain : string) (now : nat) (result : presult)
    (tool_calls : list tool_call) (st : lstate)
    : Exc (chat_result + list tool_call) * lstate :=
  match find is_learn tool_calls with
  | None => (ret (inr tool_calls), st)
  | Some tc =>
      let args := tc_args tc in
      let target_domain := if String.eqb domain "" then "global" else domain in
      match py_get args "rule" (JStr "") with
      | inl e => (raise e, st)
      | inr rule_text =>
        match py_get args "category" (JStr "general") with
        | inl e => (raise e, st)
        | inr category =>
          let (add_result, mem') :=
            Memory.add_rule (ls_memory st) target_domain rule_text category now in
          let status := if Memory.ar_success add_result then "learned"
                        else match Memory.ar_reason add_result with
                             | Some r => r | None => "skipped" end in
          let events := (ls_events st ++
                         [mk_le rule_text category target_domain (isoformat now) status])%list in
          let st' := mk_ls (ls_messages st) events mem' (ls_provider_calls st)
                           (ls_exec_calls st) (ls_result st) in
          let tool_calls' := filter (fun t => negb (is_learn t)) tool_calls in
          match tool_calls' with
          | [] =>
              let confirm_msg := "규칙을 학습했습니다: " ++ py_str rule_text in
              (r <- strip_markdown (py_or (content_or result (JStr "")) (JStr confirm_msg)) ;;
               ret (inl (mk_cr r None events)), st')
          | _ => (ret (inr tool_calls'), st')
          end
        end
      end
  end.

(** The request_user_choice block. *)
Definition handle_user_choice (result : presult) (tool_calls : list tool_call)
    (events : list learning_event) : option (Exc chat_result) :=
  match find is_choice tool_calls with
  | None => None
  | Some tc => Some (
      let args := tc_args tc in
      q0 <- py_get args "question" (JStr "") ;;
      response <- strip_markdown (py_or (content_or result (JStr "")) q0) ;;
      question <- py_get args "question" (JStr "") ;;
      options <- py_get args "options" (JArr []) ;;
      options5 <- py_slice 5 options ;;
      ptool <- py_get args "pending_tool" (JStr "action") ;;
      pfield <- py_get args "field_name" (JStr "field") ;;
      tool <- py_get args "pending_tool" (JStr "") ;;
      pargs <- py_get args "pending_args" (JObj []) ;;
      field <- py_get args "field_name" (JStr "") ;;
      ret (mk_cr response
             (Some (mk_inter question options5 (py_str ptool ++ "_" ++ py_str pfield)
                     (JObj [("tool", tool); ("args", pargs); ("field_name", field)])))
             events))
  end.

(** Execute each tool and append its result. *)
Fixpoint exec_tools (tool_calls : list tool_call) (st : lstate) : lstate :=
  match tool_calls with
  | [] => st
  | tc :: rest =>
      let out := tool_executor (length (ls_exec_calls st)) (tc_name tc) (tc_args tc) in
      exec_tools rest
        (mk_ls (ls_messages st ++ [MsgTool (tc_id tc) out])%list (ls_events st)
               (ls_memory st) (ls_provider_calls st)
               (ls_exec_calls st ++ [(tc_name tc, tc_args tc)])%list (ls_result st))
  end.

Inductive round_out := Finished (r : Exc chat_result) | Next.

(** One iteration of [for _ in range(max_tool_rounds)]. *)
Definition round (domain : string) (now : nat) (st : lstate) : round_out * lstate :=
  let result := provider (ls_provider_calls st) (ls_messages st) in
  let st1 := mk_ls (ls_messages st) (ls_events st) (ls_memory st)
                   (S (ls_provider_calls st)) (ls_exec_calls st) (Some result) in
  match pr_tool_calls result with
  | [] =>
      (Finished (r <- strip_markdown (content_or result (JStr "")) ;;
                 ret (mk_cr r None (ls_events st1))), st1)
  | tool_calls =>
      match handle_learn_rule domain now result tool_calls st1 with
      | (inl e, st2) => (Finished (raise e), st2)
      | (inr (inl cr), st2) => (Finished (ret cr), st2)
      | (inr (inr tool_calls'), st2) =>
          match handle_user_choice result tool_calls' (ls_events st2) with
          | Some r => (Finished r, st2)
          | None =>
              let st3 := mk_ls (ls_messages st2 ++ [MsgAssistant (content_get result) tool_calls'])%list
                               (ls_events st2) (ls_memory st2) (ls_provider_calls st2)
                               (ls_exec_calls st2) (ls_result st2) in
              (Next, exec_tools tool_calls' st3)
          end
      end
  end.

Fixpoint loop (n : nat) (domain : string) (now : nat) (st : lstate) : round_out * lstate :=
  match n with
  | O => (Next, st)
  | S n' =>
      match round domain now st with
      | (Finished r, st') => (Finished r, st')
      | (Next, st') => loop n' domain now st'
      end
  end.

(** [full_messages = [system] + messages], no call made yet, [result]
    unbound. *)
Definition init_state (system_prompt : string) (messages : list json)
    (mem : Memory.memfile) : lstate :=
  mk_ls (MsgJson (JObj [("role", JStr "system"); ("content", JStr system_prompt)])
           :: map MsgJson messages) [] mem 0 [] None.

Definition LIMIT_MSG : string := "처리 한도를 초과했습니다.".

(** [chat_with_tools_multi(system_prompt, messages, tools, tool_executor,
    max_tokens, max_tool_rounds, domain)] without images; a negative
    [max_tool_rounds] behaves as 0 in [range], so it is a [nat]. *)
Definition chat_with_tools_multi (system_prompt : string) (messages : list json)
    (max_tool_rounds : nat) (domain : string) (now : nat) (mem : Memory.memfile)
    : Exc chat_result * lstate :=
  match loop max_tool_rounds domain now (init_state system_prompt messages mem) with
  | (Finished r, st) => (r, st)
  | (Next, st) =>
      match ls_result st with
      | None => (raise UnboundLocalError, st)
      | Some result =>
          (r <- strip_markdown (content_or result (JStr LIMIT_MSG)) ;;
           ret (mk_cr r None (ls_events st)), st)
      end
  end.

End Loop.


End Agent.

(** ** core/ai_provider.py *)

Module Providers.
Import Agent.

Inductive provider :=
| OpenAIProvider (api_key model : string)
| GeminiProvider (api_key model : string)
| FallbackProvider (primary : provider) (fallback : option provider).

Record request := mk_req {
  req_url : string;
  req_body : json;
  req_headers : list (string * string)
}.

Definition OPENAI_URL : string := "https://api.openai.com/v1/chat/completions".
Definition GEMINI_URL : string :=
  "https://generativelanguage.googleapis.com/v1beta/openai/chat/completions".

Definition _NEW_PARAM_MODELS : list string := ["gpt-5"; "o1"; "o3"; "o4"].

Definition _uses_new_tokens_param (model : string) : bool :=
  existsb (fun prefix => startswith prefix model) _NEW_PARAM_MODELS.

Definition headers (api_key : string) : list (string * string) :=
  [("Authorization", "Bearer " ++ api_key); ("Content-Type", "application/json")].

Definition add_tools (tools : json) (body : list (string * json)) : list (string * json) :=
  if truthy tools then dset "tool_choice" (JStr "auto") (dset "tools" tools body) else body.

Definition openai_request (api_key model : string) (messages tools max_tokens temperature : json)
    : request :=
  let body := [("model", JStr model); ("messages", messages)] in
  let body := if _uses_new_tokens_param model
              then dset "max_completion_tokens" max_tokens body
              else dset "temperature" temperature (dset "max_tokens" max_tokens body) in
  mk_req OPENAI_URL (JObj (add_tools tools body)) (headers api_key).

Definition gemini_request (api_key model : string) (messages tools max_tokens temperature : json)
    : request :=
  let body := [("model", JStr model); ("messages", messages);
               ("max_tokens", max_tokens); ("temperature", temperature)] in
  mk_req GEMINI_URL (JObj (add_tools tools body)) (headers api_key).

(** The [f"AI 응답 오류: {e}"] result of the [except] clause. *)
Definition error_result (exn_str : exn -> string) (e : exn) : presult :=
  mk_presult (Some (JStr (sentinel ++ " " ++ exn_str e))) [].

(** [(result.get("content") or "")] as a [str]; [.startswith] on another
    value raises [AttributeError]. *)
Definition content_str (r : presult) : Exc string :=
  let c := content_get r in
  if negb (truthy c) then ret ""
  else match c with JStr s => ret s | _ => raise AttributeError end.

Section Chat.

(** [urlopen] followed by [json.load]: the decoded response or the
    exception raised on the way (network, HTTP status, TLS, decoding). *)
Variable http : request -> Exc json.
(** [json.loads] *)
Variable json_loads : string -> Exc json.
(** [str(e)] *)
Variable exn_str : exn -> string.

Definition parse_tool_call (tc : json) : Exc tool_call :=
  id <- py_getitem tc "id" ;;
  f <- py_getitem tc "function" ;;
  name <- py_getitem f "name" ;;
  a <- py_getitem f "arguments" ;;
  args <- (match a with JStr s => json_loads s | _ => raise TypeError end) ;;
  ret (mk_tc id name args).

Fixpoint parse_tool_calls (l : list json) : Exc (list tool_call) :=
  match l with
  | [] => ret []
  | tc :: l' => t <- parse_tool_call tc ;; ts <- parse_tool_calls l' ;; ret (t :: ts)
  end.

(** The body of the [try]: [msg = result["choices"][0]["message"]], the
    tool calls, and [msg.get("content", "")]. Iterating a dict or a string
    yields keys or characters, which have no ["id"]. *)
Definition parse_response (result : json) : Exc presult :=
  choices <- py_getitem result "choices" ;;
  c0 <- py_index choices 0 ;;
  msg <- py_getitem c0 "message" ;;
  tcs <- py_get msg "tool_calls" (JArr []) ;;
  tool_calls <- (match tcs with
                 | JArr l => parse_tool_calls l
                 | JObj [] | JStr "" => ret []
                 | _ => raise TypeError
                 end) ;;
  content <- py_get msg "content" (JStr "") ;;
  ret (mk_presult (Some content) tool_calls).

(** [try: ... except Exception as e: return {"content": f"AI 응답 오류: {e}", ...}] *)
Definition attempt (req : request) : presult :=
  match (r <- http req ;; parse_response r) with
  | inl e => error_result exn_str e
  | inr pr => pr
  end.

(** One [chat] call: each provider's invocation is logged with its
    arguments, the nested ones after it. *)
Definition invocation : Type := (provider * json * json * json * json)%type.

Fixpoint chat (p : provider) (messages tools max_tokens temperature : json)
    : Exc presult * list invocation :=
  let me := (p, messages, tools, max_tokens, temperature) in
  match p with
  | OpenAIProvider key model =>
      (ret (attempt (openai_request key model messages tools max_tokens temperature)), [me])
  | GeminiProvider key model =>
      (ret (attempt (gemini_request key model messages tools max_tokens temperature)), [me])
  | FallbackProvider primary fallback =>
      let (r1, log1) := chat primary messages tools max_tokens temperature in
      match r1 with
      | inl e => (inl e, me :: log1)
      | inr result =>
          match content_str result with
          | inl e => (inl e, me :: log1)
          | inr content =>
              match fallback with
              | Some fb =>
                  if startswith sentinel content then
                    let (r2, log2) := chat fb messages tools max_tokens temperature in
                    (r2, me :: log1 ++ log2)%list
                  else (inr result, me :: log1)
              | None => (inr result, me :: log1)
              end
          end
      end
  end.

End Chat.

(** [os.environ.get(name)] *)
Definition environ := string -> option string.

Definition env_get (env : environ) (name default : string) : string :=
  match env name with Some v => v | None => default end.

Definition get_openai_key (env : environ) : string := env_get env "OPENAI_API_KEY" "".

(** [get_ai_config()]: every value a [str]. *)
Record ai_config := mk_config {
  cfg_provider : string;
  cfg_model : string;
  cfg_gemini_api_key : string;
  cfg_fallback_provider : string;
  cfg_fallback_model : string
}.

Definition get_ai_config (env : environ) : ai_config :=
  mk_config (env_get env "AI_PROVIDER" "openai")
            (env_get env "AI_MODEL" "gpt-4o-mini")
            (env_get env "GEMINI_API_KEY" "")
            (env_get env "AI_FALLBACK_PROVIDER" "")
            (env_get env "AI_FALLBACK_MODEL" "gpt-4o-mini").

Definition _create_provider (env : environ) (provider_name model : string)
    (config : ai_config) : provider :=
  if String.eqb provider_name "gemini" then GeminiProvider (cfg_gemini_api_key config) model
  else OpenAIProvider (get_openai_key env) model.

(** The invocations of a [chat] log that send an HTTP request: those of
    a concrete provider. *)
Definition sends_request (i : invocation) : bool :=
  let '(p, _, _, _, _) := i in
  match p with FallbackProvider _ _ => false | _ => true end.

Definition get_provider (env : environ) : provider :=
  let config := get_ai_config env in
  let primary := _create_provider env (cfg_provider config) (cfg_model config) config in
  if negb (String.eqb (cfg_fallback_provider config) "") then
    FallbackProvider primary
      (Some (_create_provider env (cfg_fallback_provider config)
                              (cfg_fallback_model config) config))
  else primary.

End Providers.

(** ** core/openai_client.py: classify_domain *)

Module Classify.
Import Agent.

(** [str.lower] on ASCII letters. *)
Definition lower_char (c : ascii) : ascii :=
  let n := nat_of_ascii c in
  if andb (Nat.leb 65 n) (Nat.leb n 90) then ascii_of_nat (n + 32) else c.

Fixpoint lower (s : string) : string :=
  match s with
  | EmptyString => EmptyString
  | String c s' => String (lower_char c) (lower s')
  end.

(** [str.strip()] on ASCII white space. *)
Definition is_space (c : ascii) : bool :=
  let n := nat_of_ascii c in
  orb (Nat.eqb n 32) (andb (Nat.leb 9 n) (Nat.leb n 13)) ||
  andb (Nat.leb 28 n) (Nat.leb n 31).

Fixpoint lstrip (s : string) : string :=
  match s with
  | String c s' => if is_space c then lstrip s' else s
  | EmptyString => EmptyString
  end.

Fixpoint rev_str (s : string) (acc : string) : string :=
  match s with
  | EmptyString => acc
  | String c s' => rev_str s' (String c acc)
  end.

Definition strip (s : string) : string :=
  rev_str (lstrip (rev_str (lstrip s) EmptyString)) EmptyString.

(** [sum(1 for kw in keywords if kw in msg_lower)] *)
Definition score (msg_lower : string) (keywords : list string) : nat :=
  length (filter (fun kw => contains kw msg_lower) keywords).

(** The [scores] dict: domains with a positive score, in the order of
    [domain_keywords]. *)
Definition build_scores (msg_lower : string) (domain_keywords : list (string * list string))
    : list (string * nat) :=
  fold_left (fun scores '(domain, keywords) =>
               let sc := score msg_lower keywords in
               if Nat.ltb 0 sc then dset domain sc scores else scores)
            domain_keywords [].

(** [max(scores, key=scores.get)]: the first key of maximal value. *)
Fixpoint max_from (best : string * nat) (l : list (string * nat)) : string * nat :=
  match l with
  | [] => best
  | (k, v) :: l' => if Nat.ltb (snd best) v then max_from (k, v) l' else max_from best l'
  end.

Definition VALID : list string :=
  ["schedule"; "content"; "finance"; "travel"; "tools"; "business"; "workspace"].

Fixpoint join (sep : string) (l : list string) : string :=
  match l with
  | [] => ""
  | [x] => x
  | x :: l' => x ++ sep ++ join sep l'
  end.

Definition nl : string := String (ascii_of_nat 10) EmptyString.

Definition classifier_messages (message : string) (domain_keywords : list (string * list string))
    : json :=
  let domains_desc := join nl (map (fun '(name, kw) => "- " ++ name ++ ": " ++ join ", " kw)
                                   domain_keywords) in
  let system_msg := "You are a domain classifier. Given a user message, output ONLY " ++
    "one domain name from: schedule, content, finance, travel, tools, business, workspace. " ++
    "No explanation, no punctuation — just the domain name." in
  let user_msg := "도메인 목록:" ++ nl ++ domains_desc ++ nl ++ nl ++ "사용자 메시지: " ++
    message ++ nl ++ nl ++ "도메인:" in
  JArr [JObj [("role", JStr "system"); ("content", JStr system_msg)];
        JObj [("role", JStr "user"); ("content", JStr user_msg)]].

(** [for d in valid: if d in text: return d] followed by [return "schedule"],
    the set being iterated in [order]. *)
Fixpoint scan (order : list string) (text : string) : string :=
  match order with
  | [] => "schedule"
  | d :: order' => if contains d text then d else scan order' text
  end.

Section Classify.

(** [provider.chat(messages, max_tokens=50, temperature=0)] *)
Variable llm : json -> Exc presult.
(** The iteration order of the set literal [valid] (Python's string hash
    decides it). *)
Variable valid_order : list string.

(** [classify_domain(message, domain_keywords)]: the domain, and the
    number of LLM calls made. *)
Definition classify_domain (message : string) (domain_keywords : list (string * list string))
    : Exc string * nat :=
  let msg_lower := lower message in
  let scores := build_scores msg_lower domain_keywords in
  let phase2 :=
    (r <- llm (classifier_messages message domain_keywords) ;;
     content <- Providers.content_str r ;;
     ret (scan valid_order (lower (strip content))), 1) in
  match scores with
  | [] => phase2
  | first :: rest =>
      let best := max_from first rest in
      let top_score := snd best in
      let tied := filter (fun '(d, sc) => Nat.eqb sc top_score) scores in
      if Nat.eqb (length tied) 1 then (ret (fst best), 0) else phase2
  end.

End Classify.

End Classify.

(** ** Concrete inputs *)

Module Scenarios.
Import Agent.

Definition learn_call (id rule : string) : tool_call :=
  mk_tc (JStr id) (JStr LEARN_RULE)
        (JObj [("rule", JStr rule); ("category", JStr "general")]).

(** A model that answers every round with two learn_rule calls. *)
Definition two_rules_provider (_ : nat) (_ : list message) : presult :=
  mk_presult (Some JNull) [learn_call "call_1" "A"; learn_call "call_2" "B"].

Definition choice_call : tool_call :=
  mk_tc (JStr "call_1") (JStr REQUEST_USER_CHOICE)
        (JObj [("question", JStr "which day?");
               ("options", JArr [JStr "mon"; JStr "tue"]);
               ("field_name", JStr "day");
               ("pending_tool", JStr "book");
               ("pending_args", JObj [("title", JStr "meeting")])]).

(** A model whose first answer is a single request_user_choice call. *)
Definition choice_provider (_ : nat) (_ : list message) : presult :=
  mk_presult (Some JNull) [choice_call].

Definition ok_executor (_ : nat) (_ _ : json) : string := "ok".

Definition no_markdown (s : string) : string := s.

(** A stored session of user U1 in channel C1, domain schedule, whose
    pending action asks for the [day] of tool [tool]. *)
Definition pending_files (tool : string) : Session.fstore :=
  fun _ => Session.FJson
    (JObj [("user_id", JStr "U1"); ("channel_id", JStr "C1");
           ("session_scope", JStr "default"); ("domain", JStr "schedule");
           ("messages", JArr []);
           ("pending_action", JObj [("tool", JStr tool);
                                    ("args", JObj [("title", JStr "meeting")]);
                                    ("field_name", JStr "day")]);
           ("created_at", JStr (isoformat 0)); ("updated_at", JStr (isoformat 0))]).

(** An executor that answers with the tool name it was given. *)
Definition tool_echo (_ tool : string) (_ : json) : string := tool.

(** The executor invocation recorded by a resolution, if any. *)
Definition invocation_of
    (r : Exc (Assistant.resolve_result * option (string * json) * Session.fstore))
    : option (string * json) :=
  match r with inr (_, inv, _) => inv | inl _ => None end.

(** A classifier model that always answers [text]. *)
Definition llm_answers (text : string) (_ : json) : Exc Agent.presult :=
  ret (Agent.mk_presult (Some (JStr text)) []).

(** A memory file with one global rule and one finance rule. *)
Definition two_domain_memory : Memory.memfile :=
  Memory.MStored (Memory.mk_memory
    [("global", [Memory.mk_rule (JStr "b") (JStr "general") "1" 2]);
     ("finance", [Memory.mk_rule (JStr "a") (JStr "mapping") "1" 0])] [] "1").

(** The fields of the empty session of U1 in C1 at time 0. *)
Definition empty_kv : list (string * json) :=
  [("user_id", JStr "U1"); ("channel_id", JStr "C1");
   ("session_scope", JStr "default"); ("domain", JStr "");
   ("messages", JArr []); ("pending_action", JNull);
   ("created_at", JStr (isoformat 0)); ("updated_at", JStr (isoformat 0))].

(** The fields of a stored session of U1 in C1 in [domain], stamped at 0,
    whose pending action asks for the [day] of tool [tool]. *)
Definition pending_action_of (tool : string) : list (string * json) :=
  [("tool", JStr tool); ("args", JObj [("title", JStr "meeting")]); ("field_name", JStr "day")].

Definition pending_kv (domain tool : string) : list (string * json) :=
  [("user_id", JStr "U1"); ("channel_id", JStr "C1");
   ("session_scope", JStr "default"); ("domain", JStr domain);
   ("messages", JArr []); ("pending_action", JObj (pending_action_of tool));
   ("created_at", JStr (isoformat 0)); ("updated_at", JStr (isoformat 0))].

Definition pending_store (domain tool : string) : Session.fstore :=
  fun _ => Session.FJson (JObj (pending_kv domain tool)).

End Scenarios.

(** * Properties *)

(** ** Dict lemmas *)

Lemma dget_dset_eq : forall {A} k (v : A) d, dget k (dset k v d) = Some v.
Proof.
  intros A k v d. induction d as [|[k' v'] d IH]; simpl.
  - rewrite String.eqb_refl. reflexivity.
  - destruct (String.eqb k k') eqn:E; simpl; rewrite ?String.eqb_refl; auto.
    rewrite E. exact IH.
Qed.

Lemma dget_dset_neq : forall {A} k k' (v : A) d,
  k <> k' -> dget k (dset k' v d) = dget k d.
Proof.
  intros A k k' v d Hne. induction d as [|[k0 v0] d IH]; simpl.
  - apply String.eqb_neq in Hne. rewrite Hne. reflexivity.
  - destruct (String.eqb k' k0) eqn:E; simpl.
    + apply String.eqb_eq in E. subst k0.
      apply String.eqb_neq in Hne. rewrite Hne. reflexivity.
    + destruct (String.eqb k k0); auto.
Qed.

(** Rewrite [dget] through [dset] with literal keys. *)
Ltac dict_simpl :=
  repeat first
    [ rewrite dget_dset_eq
    | rewrite dget_dset_neq by (let H := fresh in intro H; discriminate H) ].

Lemma length_py_tail : forall {A} k (l : list A), length (py_tail k l) = Nat.min (length l) k.
Proof.
  intros A k l. unfold py_tail. rewrite length_skipn. lia.
Qed.

(** ** Rule memory *)

Module MemoryFacts.
Import Memory.

(** Claim C9. [add_rule] rejects an exact duplicate in the domain's list
    without touching the memory file; otherwise it appends the rule, keeps
    the last 50 and saves. From a domain with no rules, two calls with the
    same text leave one rule, and the second reports "duplicate". *)
Theorem add_rule_dedup : forall f domain text category now now' rules,
  dget domain (m_rules (_load_memory f)) = Some rules \/
    (dget domain (m_rules (_load_memory f)) = None /\ rules = []) ->
  (existsb (fun r => json_eqb (r_text r) text) rules = true ->
     add_rule f domain text category now =
       (mk_add_result false (Some "duplicate") (length rules), f)) /\
  (existsb (fun r => json_eqb (r_text r) text) rules = false ->
     let new := py_tail MAX_RULES_PER_DOMAIN
                  (rules ++ [mk_rule text category (isoformat now) 0])%list in
     exists m', snd (add_rule f domain text category now) = MStored m' /\
       dget domain (m_rules m') = Some new /\
       fst (add_rule f domain text category now) = mk_add_result true None (length new)) /\
  (rules = [] -> forall t, text = JStr t ->
     let '(r1, f1) := add_rule f domain text category now in
     let '(r2, f2) := add_rule f1 domain text category now' in
     rule_count f1 domain = 1 /\ ar_success r1 = true /\
     r2 = mk_add_result false (Some "duplicate") 1 /\ f2 = f1).
Proof.
  intros f domain text category now now' rules Hr.
  assert (Hlst : forall rules1,
            rules1 = match dget domain (m_rules (_load_memory f)) with
                     | Some _ => m_rules (_load_memory f)
                     | None => dset domain [] (m_rules (_load_memory f)) end ->
            match dget domain rules1 with Some l => l | None => [] end = rules).
  { intros rules1 ->. destruct Hr as [Hr|[Hr ->]]; rewrite Hr.
    - rewrite Hr. reflexivity.
    - rewrite dget_dset_eq. reflexivity. }
  specialize (Hlst _ eq_refl).
  unfold add_rule. rewrite Hlst.
  split; [|split].
  - intros Hd. rewrite Hd. reflexivity.
  - intros Hd. rewrite Hd.
    assert (Ht : forall (l : list rule),
               (if Nat.ltb MAX_RULES_PER_DOMAIN (length l)
                then py_tail MAX_RULES_PER_DOMAIN l else l) = py_tail MAX_RULES_PER_DOMAIN l).
    { intros l. destruct (Nat.ltb MAX_RULES_PER_DOMAIN _) eqn:E; [reflexivity|].
      apply Nat.ltb_ge in E. unfold py_tail.
      replace (length l - MAX_RULES_PER_DOMAIN) with 0 by lia. reflexivity. }
    simpl. rewrite Ht.
    eexists. split; [reflexivity|]. simpl. rewrite dget_dset_eq. split; reflexivity.
  - intros -> t ->. simpl. unfold _save_memory, rule_count. cbn [_load_memory m_rules].
    rewrite !dget_dset_eq. simpl. rewrite String.eqb_refl. simpl.
    repeat split; reflexivity.
Qed.

Lemma add_rule_dedup_witness :
  (dget "finance" (m_rules (_load_memory MAbsent)) = None /\ @nil rule = []) /\
  (existsb (fun r => json_eqb (r_text r) (JStr "A")) [] = true ->
     add_rule MAbsent "finance" (JStr "A") (JStr "general") 0 =
       (mk_add_result false (Some "duplicate") (length (@nil rule)), MAbsent)) /\
  (existsb (fun r => json_eqb (r_text r) (JStr "A")) [] = false ->
     let new := py_tail MAX_RULES_PER_DOMAIN
                  ([] ++ [mk_rule (JStr "A") (JStr "general") (isoformat 0) 0])%list in
     exists m', snd (add_rule MAbsent "finance" (JStr "A") (JStr "general") 0) = MStored m' /\
       dget "finance" (m_rules m') = Some new /\
       fst (add_rule MAbsent "finance" (JStr "A") (JStr "general") 0) =
         mk_add_result true None (length new)) /\
  (@nil rule = [] -> forall t, JStr "A" = JStr t ->
     let '(r1, f1) := add_rule MAbsent "finance" (JStr "A") (JStr "general") 0 in
     let '(r2, f2) := add_rule f1 "finance" (JStr "A") (JStr "general") 60 in
     rule_count f1 "finance" = 1 /\ ar_success r1 = true /\
     r2 = mk_add_result false (Some "duplicate") 1 /\ f2 = f1).
Proof.
  split; [split; reflexivity|].
  apply (add_rule_dedup MAbsent "finance" (JStr "A") (JStr "general") 0 60 []).
  right. split; reflexivity.
Defined.


Lemma get_rules_saved : forall m now d b,
  get_rules (_save_memory m now) d b = get_rules (MStored m) d b.
Proof. reflexivity. Qed.

(** [remove_rule] with an index in range removes exactly that rule of the
    domain, returns its text and saves; any other index (negative, past
    the end, or a domain without rules) reports "invalid index" and leaves
    the file as it was. Other domains keep their rules. *)
Theorem remove_rule_index : forall f domain idx now,
  let rules := get_rules f domain false in
  ((0 <= idx < Z.of_nat (length rules))%Z ->
     exists removed, nth_error rules (Z.to_nat idx) = Some removed /\
       fst (remove_rule f domain idx now) =
         mk_remove_result true (Some (r_text removed)) None /\
       get_rules (snd (remove_rule f domain idx now)) domain false =
         (firstn (Z.to_nat idx) rules ++ skipn (S (Z.to_nat idx)) rules)%list /\
       (forall d, d <> domain ->
          get_rules (snd (remove_rule f domain idx now)) d false = get_rules f d false)) /\
  (~ (0 <= idx < Z.of_nat (length rules))%Z ->
     remove_rule f domain idx now = (mk_remove_result false None (Some "invalid index"), f)).
Proof.
  intros f domain idx now rules. unfold rules, get_rules, remove_rule. cbn [andb negb].
  destruct (dget domain (m_rules (_load_memory f))) as [l|] eqn:Hd.
  - split.
    + intros Hr.
      assert (Hb : (Z.leb 0 idx && Z.ltb idx (Z.of_nat (length l)))%bool = true)
        by (apply andb_true_intro; split; [apply Z.leb_le | apply Z.ltb_lt]; lia).
      rewrite Hb.
      destruct (nth_error l (Z.to_nat idx)) as [r|] eqn:Hn.
      * exists r. split; [reflexivity|]. cbn [fst snd _save_memory _load_memory m_rules].
        split; [reflexivity|]. split.
        -- rewrite dget_dset_eq. reflexivity.
        -- intros d Hne. rewrite dget_dset_neq by exact Hne. reflexivity.
      * apply nth_error_None in Hn. lia.
    + intros Hr.
      assert (Hb : (Z.leb 0 idx && Z.ltb idx (Z.of_nat (length l)))%bool = false).
      { destruct (Z.leb 0 idx) eqn:E1, (Z.ltb idx (Z.of_nat (length l))) eqn:E2;
          try reflexivity.
        apply Z.leb_le in E1. apply Z.ltb_lt in E2. lia. }
      rewrite Hb. reflexivity.
  - split.
    + cbn [length]. lia.
    + intros _. cbn [length].
      assert (Hb : (Z.leb 0 idx && Z.ltb idx (Z.of_nat 0))%bool = false).
      { destruct (Z.leb 0 idx) eqn:E1; [|reflexivity].
        apply Z.leb_le in E1. apply Z.ltb_ge. lia. }
      rewrite Hb. reflexivity.
Qed.

(** After a successful [add_rule] on a domain, [get_rules] of that domain
    returns its previous rules with the new one last, cut to the last 50;
    every other domain returns what it returned before. *)
Theorem add_rule_get_rules : forall f domain text category now d,
  existsb (fun r => json_eqb (r_text r) text) (get_rules f domain false) = false ->
  get_rules (snd (add_rule f domain text category now)) d false =
    if String.eqb d domain
    then py_tail MAX_RULES_PER_DOMAIN
           (get_rules f domain false ++ [mk_rule text category (isoformat now) 0])%list
    else get_rules f d false.
Proof.
  intros f domain text category now d. unfold get_rules, add_rule. cbn [andb negb].
  destruct (dget domain (m_rules (_load_memory f))) as [l|] eqn:Hd.
  - rewrite Hd. intros Hx. rewrite Hx.
    cbn [snd _save_memory _load_memory m_rules].
    destruct (String.eqb d domain) eqn:E.
    + apply String.eqb_eq in E. subst d. rewrite dget_dset_eq.
      destruct (Nat.ltb MAX_RULES_PER_DOMAIN (length (l ++ _)%list)) eqn:Hl; [reflexivity|].
      apply Nat.ltb_ge in Hl. unfold py_tail. replace (length _ - _) with 0 by lia.
      reflexivity.
    + apply String.eqb_neq in E. rewrite dget_dset_neq by exact E. reflexivity.
  - rewrite dget_dset_eq. intros _.
    cbn [existsb snd _save_memory _load_memory m_rules].
    destruct (String.eqb d domain) eqn:E.
    + apply String.eqb_eq in E. subst d. rewrite dget_dset_eq. reflexivity.
    + apply String.eqb_neq in E. rewrite !dget_dset_neq by exact E. reflexivity.
Qed.

Lemma dget_bump_domain : forall k d all,
  dget k (bump_domain d all) =
    if String.eqb k d then option_map (map bump) (dget k all) else dget k all.
Proof.
  intros k d all. unfold bump_domain.
  destruct (String.eqb k d) eqn:E.
  - apply String.eqb_eq in E. subst k.
    destruct (dget d all) eqn:Hd; [rewrite dget_dset_eq|rewrite Hd]; reflexivity.
  - apply String.eqb_neq in E.
    destruct (dget d all); [rewrite dget_dset_neq by exact E|]; reflexivity.
Qed.

Lemma rules_default_map : forall o,
  match option_map (map bump) o with Some l => l | None => [] end =
  map bump (match o with Some l => l | None => [] end).
Proof. intros [l|]; reflexivity. Qed.

Lemma get_rules_bumped : forall f domain cs u now,
  let all := m_rules (_load_memory f) in
  let all1 := bump_domain domain all in
  get_rules (_save_memory (mk_memory (if negb (String.eqb domain "global")
                                      then bump_domain "global" all1 else all1) cs u) now)
            domain true =
  map bump (get_rules f domain true).
Proof.
  intros f domain cs u now all all1. unfold all1, all, get_rules.
  cbn [_save_memory _load_memory m_rules].
  destruct (String.eqb domain "global") eqn:E; cbn [negb andb].
  - rewrite dget_bump_domain, String.eqb_refl. apply rules_default_map.
  - rewrite !dget_bump_domain, String.eqb_refl, E.
    rewrite (String.eqb_sym "global" domain), E, String.eqb_refl.
    rewrite !rules_default_map, map_app. reflexivity.
Qed.

(** [get_rules_as_prompt] returns "" exactly when the domain and the
    global rules are both empty, and then writes nothing. Otherwise it
    saves the memory with the [used_count] of each of those rules one
    higher, each counted once even for the "global" domain itself. *)
Theorem get_rules_as_prompt_usage : forall f domain now p f',
  get_rules_as_prompt f domain now = ret (p, f') ->
  get_rules f' domain true = map bump (get_rules f domain true) /\
  (get_rules f domain true = [] <-> p = "") /\
  (get_rules f domain true = [] -> f' = f).
Proof.
  intros f domain now p f'. unfold get_rules_as_prompt.
  destruct (get_rules f domain true) as [|r rs] eqn:Hg.
  - intros H. unfold ret in H. injection H as <- <-. rewrite ?Hg. repeat split; auto.
  - rewrite <- Hg. cbv beta iota delta [bind].
    destruct (rule_lines (get_rules f domain true)) as [e|lines]; [discriminate|].
    intros H. unfold ret in H. injection H as <- <-. split; [|split].
    + apply get_rules_bumped.
    + split; [intros Hc; rewrite Hg in Hc; discriminate Hc|]. intros Hp.
      destruct lines; discriminate Hp.
    + intros Hc. rewrite Hg in Hc. discriminate Hc.
Qed.


Lemma add_rule_get_rules_witness :
  existsb (fun r => json_eqb (r_text r) (JStr "a")) (get_rules MAbsent "finance" false) = false /\
  get_rules (snd (add_rule MAbsent "finance" (JStr "a") (JStr "general") 5)) "finance" false =
    if String.eqb "finance" "finance"
    then py_tail MAX_RULES_PER_DOMAIN
           (get_rules MAbsent "finance" false ++ [mk_rule (JStr "a") (JStr "general") (isoformat 5) 0])%list
    else get_rules MAbsent "finance" false.
Proof.
  split; [reflexivity|].
  apply (add_rule_get_rules MAbsent "finance" (JStr "a") (JStr "general") 5 "finance").
  reflexivity.
Defined.

Lemma get_rules_as_prompt_usage_witness :
  exists p f', get_rules_as_prompt Scenarios.two_domain_memory "finance" 7 = ret (p, f') /\
    get_rules f' "finance" true = map bump (get_rules Scenarios.two_domain_memory "finance" true) /\
    (get_rules Scenarios.two_domain_memory "finance" true = [] <-> p = "") /\
    (get_rules Scenarios.two_domain_memory "finance" true = [] -> f' = Scenarios.two_domain_memory).
Proof.
  set (f := Scenarios.two_domain_memory). do 2 eexists. split; [vm_compute; reflexivity|].
  apply (get_rules_as_prompt_usage f "finance" 7). vm_compute. reflexivity.
Defined.

End MemoryFacts.

(** ** Sessions *)

Module SessionFacts.
Import Session.

Lemma isoformat_nonempty : forall t, isoformat t <> "".
Proof.
  intros t E. unfold isoformat in E.
  destruct (Nat.to_uint t) as [| d | d | d | d | d | d | d | d | d | d] eqn:Hu;
    try discriminate E.
  pose proof (DecimalNat.Unsigned.of_to t) as H. rewrite Hu in H. simpl in H.
  subst t. simpl in Hu. discriminate Hu.
Qed.

Lemma fromisoformat_isoformat : forall t, fromisoformat (isoformat t) = Some t.
Proof.
  intros t. unfold fromisoformat.
  destruct (String.eqb (isoformat t) "") eqn:E.
  - apply String.eqb_eq in E. exfalso. exact (isoformat_nonempty t E).
  - unfold isoformat. rewrite NilEmpty.usu. simpl.
    rewrite DecimalNat.Unsigned.of_to. reflexivity.
Qed.

Lemma fs_write_same : forall fs p v, fs_write fs p v p = FJson v.
Proof. intros. unfold fs_write. rewrite String.eqb_refl. reflexivity. Qed.

Lemma or_default_idem : forall s, or_default (or_default s) = or_default s.
Proof.
  intros s. unfold or_default. destruct (String.eqb s "") eqn:E; [reflexivity|].
  rewrite E. reflexivity.
Qed.

Lemma or_default_truthy : forall s, truthy (JStr (or_default s)) = true.
Proof.
  intros s. unfold or_default. destruct (String.eqb s "") eqn:E; [reflexivity|].
  simpl. rewrite E. reflexivity.
Qed.

(** A session dict that names its own key is written back to its path. *)
Lemma save_session_stored : forall fs u c scope kv,
  dget "user_id" kv = Some (JStr u) -> dget "channel_id" kv = Some (JStr c) ->
  dget "session_scope" kv = Some (JStr (or_default scope)) ->
  _save_session (JObj kv) fs = ret (fs_write fs (_session_path u c scope) (JObj kv)).
Proof.
  intros fs u c scope kv Hu Hc Hs. unfold _save_session. simpl.
  rewrite Hu, Hc, Hs. simpl. unfold scope_of. rewrite or_default_truthy. simpl.
  unfold _session_path. rewrite or_default_idem. reflexivity.
Qed.

(** A stored session stamped at [t] and still within the TTL is returned,
    with its scope field refreshed. *)
Lemma get_session_fresh : forall u c ttl scope now fs kv t,
  fs (_session_path u c scope) = FJson (JObj kv) ->
  dget "updated_at" kv = Some (JStr (isoformat t)) ->
  (Z.of_nat now - Z.of_nat t <= 60 * ttl)%Z ->
  get_session u c ttl scope now fs =
    ret (JObj (dset "session_scope" (JStr (or_default scope)) kv)).
Proof.
  intros u c ttl scope now fs kv t Hf Hu Hle. unfold get_session. rewrite Hf.
  unfold _is_expired, py_get. rewrite Hu. cbv beta iota delta [bind ret].
  rewrite fromisoformat_isoformat.
  destruct (Z.gtb _ _) eqn:E; [apply Z.gtb_lt in E; lia | reflexivity].
Qed.

Lemma get_session_expired : forall u c ttl scope now fs kv,
  fs (_session_path u c scope) = FJson (JObj kv) ->
  _is_expired (JObj kv) ttl now = ret true ->
  get_session u c ttl scope now fs = ret (_empty_session u c scope now).
Proof.
  intros u c ttl scope now fs kv Hf He. unfold get_session. rewrite Hf, He. reflexivity.
Qed.

(** The stamp is missing, unparseable, or older than the TTL. *)
Lemma is_expired_true : forall kv ttl now,
  dget "updated_at" kv = None \/
  (exists s, dget "updated_at" kv = Some (JStr s) /\ fromisoformat s = None) \/
  (exists s t, dget "updated_at" kv = Some (JStr s) /\ fromisoformat s = Some t /\
               (Z.of_nat now - Z.of_nat t > 60 * ttl)%Z) ->
  _is_expired (JObj kv) ttl now = ret true.
Proof.
  intros kv ttl now [H|[(s & H & Hs)|(s & t & H & Hs & Hgt)]];
    unfold _is_expired, py_get; rewrite H; cbv beta iota delta [bind ret].
  - reflexivity.
  - rewrite Hs. reflexivity.
  - rewrite Hs. apply Z.gt_lt in Hgt. apply Z.gtb_lt in Hgt. rewrite Hgt.
    reflexivity.
Qed.

(** The part of C4 the code meets: an absent file, a file that is not
    valid JSON, and a stored dict that is expired or carries no usable
    stamp all give the empty session. *)
Lemma get_session_resets : forall u c ttl scope now fs,
  fs (_session_path u c scope) = FAbsent \/
  fs (_session_path u c scope) = FMalformed \/
  (exists kv, fs (_session_path u c scope) = FJson (JObj kv) /\
              _is_expired (JObj kv) ttl now = ret true) ->
  get_session u c ttl scope now fs = ret (_empty_session u c scope now).
Proof.
  intros u c ttl scope now fs [H|[H|(kv & H & He)]].
  - unfold get_session. rewrite H. reflexivity.
  - unfold get_session. rewrite H. reflexivity.
  - exact (get_session_expired u c ttl scope now fs kv H He).
Qed.

(** One [update_session] on a session dict that names its key. *)
Lemma update_step : forall u c ttl scope fs t kv acc,
  get_session u c ttl scope (t_now t) fs = ret (JObj kv) ->
  dget "user_id" kv = Some (JStr u) -> dget "channel_id" kv = Some (JStr c) ->
  dget "messages" kv = Some (JArr acc) ->
  exists kv',
    update_session u c (t_domain t) (t_user t) (t_assistant t) ttl scope (t_now t) fs =
      ret (fs_write fs (_session_path u c scope) (JObj kv')) /\
    dget "user_id" kv' = Some (JStr u) /\ dget "channel_id" kv' = Some (JStr c) /\
    dget "updated_at" kv' = Some (JStr (isoformat (t_now t))) /\
    dget "messages" kv' = Some (JArr (window_step acc t)).
Proof.
  intros u c ttl scope fs t kv acc Hg Hu Hc Hm.
  unfold update_session. rewrite Hg. cbn [bind py_setitem ret].
  unfold py_getitem. dict_simpl. rewrite Hm. cbn [bind py_append py_slice_tail py_setitem ret].
  rewrite (save_session_stored fs u c scope); [| dict_simpl; first [assumption | reflexivity] ..].
  eexists. split; [reflexivity|]. dict_simpl.
  repeat split; try assumption. unfold window_step, turn_messages.
  rewrite <- app_assoc. reflexivity.
Qed.

Lemma window_length : forall turns acc,
  length acc <= MAX_MESSAGES ->
  length (fold_left window_step turns acc) =
    Nat.min (length acc + 2 * length turns) MAX_MESSAGES.
Proof.
  induction turns as [|t ts IH]; intros acc Hle; simpl.
  - unfold MAX_MESSAGES in *. lia.
  - rewrite IH; unfold window_step; rewrite length_py_tail, length_app; simpl;
      unfold MAX_MESSAGES in *; lia.
Qed.

(** Later turns, each within the TTL of the stored stamp. *)
Lemma update_sessions_stored : forall u c ttl scope turns t0 fs kv acc,
  fs (_session_path u c scope) = FJson (JObj kv) ->
  dget "user_id" kv = Some (JStr u) -> dget "channel_id" kv = Some (JStr c) ->
  dget "updated_at" kv = Some (JStr (isoformat (t_now t0))) ->
  dget "messages" kv = Some (JArr acc) ->
  within_ttl ttl (t0 :: turns) = true ->
  exists fs' kv',
    update_sessions u c ttl scope turns fs = ret fs' /\
    fs' (_session_path u c scope) = FJson (JObj kv') /\
    dget "messages" kv' = Some (JArr (fold_left window_step turns acc)).
Proof.
  intros u c ttl scope turns. induction turns as [|t ts IH];
    intros t0 fs kv acc Hf Hu Hc Ht Hm Hw.
  - exists fs, kv. auto.
  - simpl in Hw. apply andb_prop in Hw. destruct Hw as [Hle Hw].
    apply Z.leb_le in Hle.
    pose proof (get_session_fresh u c ttl scope (t_now t) fs kv (t_now t0) Hf Ht Hle) as Hg.
    destruct (update_step u c ttl scope fs t _ acc Hg) as (kv' & Hup & Hu' & Hc' & Ht' & Hm');
      [dict_simpl; assumption .. |].
    cbn [update_sessions]. rewrite Hup. cbn [bind ret].
    apply (IH t _ kv'); auto. apply fs_write_same.
Qed.

(** Claim C5. From an empty session (the one [get_session] gives at the
    first turn), [N] calls of [update_session] on one key, each within the
    TTL of the previous one, store a session whose messages are the window
    of the turns: a user entry and an assistant entry cut to 500
    characters per turn, then the last 20. Its length is [min (2N) 20]. *)
Theorem update_sessions_window : forall u c ttl scope turns fs,
  (forall t, hd_error turns = Some t ->
     get_session u c ttl scope (t_now t) fs = ret (_empty_session u c scope (t_now t))) ->
  within_ttl ttl turns = true ->
  exists fs',
    update_sessions u c ttl scope turns fs = ret fs' /\
    (turns = [] -> fs' = fs) /\
    (turns <> [] -> exists kv,
       fs' (_session_path u c scope) = FJson (JObj kv) /\
       dget "messages" kv = Some (JArr (window turns))) /\
    length (window turns) = Nat.min (2 * length turns) MAX_MESSAGES.
Proof.
  intros u c ttl scope turns fs Hempty Hw.
  assert (Hlen : length (window turns) = Nat.min (2 * length turns) MAX_MESSAGES).
  { unfold window. rewrite window_length; simpl; [reflexivity | unfold MAX_MESSAGES; lia]. }
  destruct turns as [|t ts].
  - exists fs. repeat split; auto. intros H. congruence.
  - specialize (Hempty t eq_refl).
    destruct (update_step u c ttl scope fs t _ [] Hempty) as (kv' & Hup & Hu' & Hc' & Ht' & Hm');
      [reflexivity .. |].
    destruct (update_sessions_stored u c ttl scope ts t
                (fs_write fs (_session_path u c scope) (JObj kv')) kv' (window_step [] t))
      as (fs' & kv'' & Hrest & Hf'' & Hm'');
      [apply fs_write_same | assumption .. |].
    exists fs'. cbn [update_sessions]. rewrite Hup. cbn [bind ret].
    split; [exact Hrest|]. split; [discriminate|]. split; [|exact Hlen].
    intros _. exists kv''. split; [exact Hf''|]. exact Hm''.
Qed.

Lemma update_sessions_window_witness :
  let turns := [mk_turn 0 (JStr "schedule") "hi" "hello";
                mk_turn 60 (JStr "schedule") "book" "done";
                mk_turn 120 (JStr "finance") "pay" "paid"] in
  (forall t, hd_error turns = Some t ->
     get_session "U1" "C1" DEFAULT_TTL "default" (t_now t) (fun _ => FAbsent) =
       ret (_empty_session "U1" "C1" "default" (t_now t))) /\
  within_ttl DEFAULT_TTL turns = true /\
  exists fs',
    update_sessions "U1" "C1" DEFAULT_TTL "default" turns (fun _ => FAbsent) = ret fs' /\
    (turns = [] -> fs' = (fun _ => FAbsent)) /\
    (turns <> [] -> exists kv,
       fs' (_session_path "U1" "C1" "default") = FJson (JObj kv) /\
       dget "messages" kv = Some (JArr (window turns))) /\
    length (window turns) = Nat.min (2 * length turns) MAX_MESSAGES.
Proof.
  intros turns.
  assert (H1 : forall t, hd_error turns = Some t ->
     get_session "U1" "C1" DEFAULT_TTL "default" (t_now t) (fun _ => FAbsent) =
       ret (_empty_session "U1" "C1" "default" (t_now t))).
  { intros t Ht. injection Ht as <-. reflexivity. }
  assert (H2 : within_ttl DEFAULT_TTL turns = true) by reflexivity.
  split; [exact H1|]. split; [exact H2|].
  exact (update_sessions_window "U1" "C1" DEFAULT_TTL "default" turns (fun _ => FAbsent) H1 H2).
Defined.

Lemma set_pending_step : forall u c action ttl scope now fs kv,
  get_session u c ttl scope now fs = ret (JObj kv) ->
  dget "user_id" kv = Some (JStr u) -> dget "channel_id" kv = Some (JStr c) ->
  exists kv',
    set_pending_action u c action ttl scope now fs =
      ret (fs_write fs (_session_path u c scope) (JObj kv')) /\
    dget "user_id" kv' = Some (JStr u) /\ dget "channel_id" kv' = Some (JStr c) /\
    dget "updated_at" kv' = Some (JStr (isoformat now)) /\
    dget "pending_action" kv' = Some action.
Proof.
  intros u c action ttl scope now fs kv Hg Hu Hc.
  unfold set_pending_action. rewrite Hg. cbn [bind py_setitem ret].
  rewrite (save_session_stored fs u c scope); [| dict_simpl; first [assumption | reflexivity] ..].
  eexists. split; [reflexivity|]. dict_simpl. repeat split; assumption.
Qed.

Lemma get_and_clear_some : forall u c ttl scope now fs kv action,
  get_session u c ttl scope now fs = ret (JObj kv) ->
  dget "user_id" kv = Some (JStr u) -> dget "channel_id" kv = Some (JStr c) ->
  dget "pending_action" kv = Some action -> truthy action = true ->
  exists kv',
    get_and_clear_pending_action u c ttl scope now fs =
      ret (action, fs_write fs (_session_path u c scope) (JObj kv')) /\
    dget "user_id" kv' = Some (JStr u) /\ dget "channel_id" kv' = Some (JStr c) /\
    dget "updated_at" kv' = Some (JStr (isoformat now)) /\
    dget "pending_action" kv' = Some JNull.
Proof.
  intros u c ttl scope now fs kv action Hg Hu Hc Hp Ht.
  unfold get_and_clear_pending_action. rewrite Hg. cbn [bind py_setitem py_get ret].
  dict_simpl. rewrite Hp, Ht. cbn [bind py_setitem ret].
  rewrite (save_session_stored fs u c scope); [| dict_simpl; first [assumption | reflexivity] ..].
  eexists. split; [reflexivity|]. dict_simpl. repeat split; assumption.
Qed.

Lemma get_and_clear_none : forall u c ttl scope now fs kv,
  get_session u c ttl scope now fs = ret (JObj kv) ->
  truthy (match dget "pending_action" kv with Some v => v | None => JNull end) = false ->
  get_and_clear_pending_action u c ttl scope now fs =
    ret (match dget "pending_action" kv with Some v => v | None => JNull end, fs).
Proof.
  intros u c ttl scope now fs kv Hg Ht.
  unfold get_and_clear_pending_action. rewrite Hg. cbn [bind py_setitem py_get ret].
  dict_simpl. rewrite Ht. reflexivity.
Qed.

(** Claim C4. A session file that holds valid JSON other than an object
    (here [[]]) makes [get_session] raise [AttributeError], and a file that
    is not valid UTF-8 makes it raise [UnicodeDecodeError]: neither is
    caught by [except (json.JSONDecodeError, KeyError)]. *)
Theorem get_session_raises_on_corrupt_file :
  get_session "U1" "C1" DEFAULT_TTL "default" 0 (fun _ => FJson (JArr [])) =
    raise AttributeError /\
  get_session "U1" "C1" DEFAULT_TTL "default" 0 (fun _ => FUndecodable) =
    raise UnicodeDecodeError.
Proof. split; reflexivity. Qed.

Lemma str_app_assoc : forall a b c : string, (a ++ b) ++ c = a ++ (b ++ c).
Proof. induction a as [|x a IH]; intros b c; simpl; [reflexivity|]. rewrite IH. reflexivity. Qed.

Lemma dset_present : forall {A} k (v : A) d, dget k d = Some v -> dset k v d = d.
Proof.
  intros A k v d. induction d as [|[k' v'] d IH]; simpl; [discriminate|].
  destruct (String.eqb k k') eqn:E.
  - apply String.eqb_eq in E. subst k'. intros H. injection H as ->. reflexivity.
  - intros H. rewrite IH by exact H. reflexivity.
Qed.

(** A session file stamped at [t] is kept by [get_session] exactly while
    it is at most [60 * ttl_minutes] seconds old; past that the caller
    gets a fresh empty session. *)
Theorem get_session_ttl_boundary : forall u c ttl scope now fs kv t,
  fs (_session_path u c scope) = FJson (JObj kv) ->
  dget "updated_at" kv = Some (JStr (isoformat t)) ->
  get_session u c ttl scope now fs =
    if Z.leb (Z.of_nat now - Z.of_nat t) (60 * ttl)
    then ret (JObj (dset "session_scope" (JStr (or_default scope)) kv))
    else ret (_empty_session u c scope now).
Proof.
  intros u c ttl scope now fs kv t Hf Hu.
  destruct (Z.leb _ _) eqn:E.
  - apply Z.leb_le in E. exact (get_session_fresh u c ttl scope now fs kv t Hf Hu E).
  - apply Z.leb_gt in E. apply (get_session_expired u c ttl scope now fs kv Hf).
    apply is_expired_true. right. right. exists (isoformat t), t.
    split; [exact Hu|]. split; [apply fromisoformat_isoformat | lia].
Qed.

(** [update_session] writes back the session with only "domain",
    "session_scope", "messages" and "updated_at" changed, and
    [set_pending_action] with only "session_scope", "pending_action" and
    "updated_at" changed: a conversation turn keeps a pending action, and
    setting an action keeps the messages. *)
Theorem session_updates_frame : forall u c domain user_msg assistant_msg action
    ttl scope now fs kv acc,
  get_session u c ttl scope now fs = ret (JObj kv) ->
  dget "user_id" kv = Some (JStr u) -> dget "channel_id" kv = Some (JStr c) ->
  dget "messages" kv = Some (JArr acc) ->
  (exists kv', update_session u c domain user_msg assistant_msg ttl scope now fs =
                 ret (fs_write fs (_session_path u c scope) (JObj kv')) /\
     forall k, k <> "domain" -> k <> "session_scope" -> k <> "messages" ->
               k <> "updated_at" -> dget k kv' = dget k kv) /\
  (exists kv', set_pending_action u c action ttl scope now fs =
                 ret (fs_write fs (_session_path u c scope) (JObj kv')) /\
     forall k, k <> "session_scope" -> k <> "pending_action" -> k <> "updated_at" ->
               dget k kv' = dget k kv).
Proof.
  intros u c domain um am action ttl scope now fs kv acc Hg Hu Hc Hm. split.
  - unfold update_session. rewrite Hg. cbn [bind py_setitem ret].
    unfold py_getitem. dict_simpl. rewrite Hm.
    cbn [bind py_append py_slice_tail py_setitem ret].
    rewrite (save_session_stored fs u c scope);
      [| dict_simpl; first [assumption | reflexivity] ..].
    eexists. split; [reflexivity|]. intros k H1 H2 H3 H4.
    rewrite !dget_dset_neq by assumption. reflexivity.
  - unfold set_pending_action. rewrite Hg. cbn [bind py_setitem ret].
    rewrite (save_session_stored fs u c scope);
      [| dict_simpl; first [assumption | reflexivity] ..].
    eexists. split; [reflexivity|]. intros k H1 H2 H3.
    rewrite !dget_dset_neq by assumption. reflexivity.
Qed.

(** [clear_session] stores the empty session whatever was there: read
    back within the TTL it is that empty session, with no pending action
    left to resolve. *)
Theorem clear_session_then_get : forall u c ttl scope now now' fs,
  (Z.of_nat now' - Z.of_nat now <= 60 * ttl)%Z ->
  exists fs', clear_session u c scope now fs = ret fs' /\
    get_session u c ttl scope now' fs' = ret (_empty_session u c scope now) /\
    get_and_clear_pending_action u c ttl scope now' fs' = ret (JNull, fs').
Proof.
  intros u c ttl scope now now' fs Hle.
  assert (Hs : clear_session u c scope now fs =
               ret (fs_write fs (_session_path u c scope) (_empty_session u c scope now)))
    by (apply save_session_stored; reflexivity).
  assert (Hg : get_session u c ttl scope now'
                 (fs_write fs (_session_path u c scope) (_empty_session u c scope now)) =
               ret (_empty_session u c scope now)).
  { unfold _empty_session.
    rewrite (get_session_fresh u c ttl scope now' _ _ now (fs_write_same _ _ _));
      [| reflexivity | exact Hle].
    rewrite dset_present by reflexivity. reflexivity. }
  eexists. split; [exact Hs|]. split; [exact Hg|].
  apply (get_and_clear_none u c ttl scope now' _ _ Hg). reflexivity.
Qed.

Lemma session_path_shift : forall u c1 c2 scope,
  _session_path (u ++ "_" ++ c1) c2 scope = _session_path u (c1 ++ "_" ++ c2) scope.
Proof.
  intros u c1 c2 scope. unfold _session_path. rewrite !str_app_assoc. reflexivity.
Qed.

(** Session files are keyed by the joined name [scope_user_channel]: the
    key (u, c1_c2) and the key (u_c1, c2) share one file, so an action set
    for the first is returned, and cleared, by [get_and_clear_pending_action]
    for the second. *)
Theorem session_key_collision : forall u c1 c2 ttl scope now fs kv action,
  (0 <= ttl)%Z ->
  get_session u (c1 ++ "_" ++ c2) ttl scope now fs = ret (JObj kv) ->
  dget "user_id" kv = Some (JStr u) ->
  dget "channel_id" kv = Some (JStr (c1 ++ "_" ++ c2)) ->
  truthy action = true ->
  _session_path (u ++ "_" ++ c1) c2 scope = _session_path u (c1 ++ "_" ++ c2) scope /\
  exists fs1 fs2,
    set_pending_action u (c1 ++ "_" ++ c2) action ttl scope now fs = ret fs1 /\
    get_and_clear_pending_action (u ++ "_" ++ c1) c2 ttl scope now fs1 = ret (action, fs2).
Proof.
  intros u c1 c2 ttl scope now fs kv action Httl Hg Hu Hc Ha.
  split; [apply session_path_shift|].
  destruct (set_pending_step u (c1 ++ "_" ++ c2) action ttl scope now fs kv Hg Hu Hc)
    as (kv' & Hset & Hu' & Hc' & Ht' & Hp').
  set (fs1 := fs_write fs (_session_path u (c1 ++ "_" ++ c2) scope) (JObj kv')).
  assert (Hg1 : get_session (u ++ "_" ++ c1) c2 ttl scope now fs1 =
                ret (JObj (dset "session_scope" (JStr (or_default scope)) kv'))).
  { apply (get_session_fresh _ _ _ _ _ _ _ now); [| exact Ht' | lia].
    rewrite session_path_shift. apply fs_write_same. }
  exists fs1. unfold get_and_clear_pending_action. rewrite Hg1.
  cbn [bind py_setitem py_get ret]. dict_simpl. rewrite Hp', Ha.
  cbn [bind py_setitem ret].
  rewrite (save_session_stored fs1 u (c1 ++ "_" ++ c2) scope);
    [| dict_simpl; first [assumption | reflexivity] ..].
  eexists. split; [exact Hset | reflexivity].
Qed.

Lemma get_session_ttl_boundary_witness :
  (fun _ : string => FJson (JObj [("updated_at", JStr (isoformat 100))]))
    (_session_path "U1" "C1" "default") = FJson (JObj [("updated_at", JStr (isoformat 100))]) /\
  dget "updated_at" [("updated_at", JStr (isoformat 100))] = Some (JStr (isoformat 100)) /\
  get_session "U1" "C1" 1 "default" 200
    (fun _ : string => FJson (JObj [("updated_at", JStr (isoformat 100))])) =
    if Z.leb (Z.of_nat 200 - Z.of_nat 100) (60 * 1)
    then ret (JObj (dset "session_scope" (JStr (or_default "default"))
                         [("updated_at", JStr (isoformat 100))]))
    else ret (_empty_session "U1" "C1" "default" 200).
Proof.
  split; [reflexivity|]. split; [reflexivity|].
  apply (get_session_ttl_boundary "U1" "C1" 1 "default" 200
           (fun _ : string => FJson (JObj [("updated_at", JStr (isoformat 100))]))
           [("updated_at", JStr (isoformat 100))] 100); reflexivity.
Defined.

Lemma session_updates_frame_witness :
  get_session "U1" "C1" 30 "default" 0 (fun _ => FAbsent) = ret (JObj Scenarios.empty_kv) /\
  ((exists kv', update_session "U1" "C1" (JStr "finance") "hi" "ok" 30 "default" 0
                  (fun _ => FAbsent) =
                  ret (fs_write (fun _ => FAbsent) (_session_path "U1" "C1" "default") (JObj kv')) /\
      forall k, k <> "domain" -> k <> "session_scope" -> k <> "messages" ->
                k <> "updated_at" -> dget k kv' = dget k Scenarios.empty_kv) /\
   (exists kv', set_pending_action "U1" "C1" (JStr "x") 30 "default" 0 (fun _ => FAbsent) =
                  ret (fs_write (fun _ => FAbsent) (_session_path "U1" "C1" "default") (JObj kv')) /\
      forall k, k <> "session_scope" -> k <> "pending_action" -> k <> "updated_at" ->
                dget k kv' = dget k Scenarios.empty_kv)).
Proof.
  split; [reflexivity|].
  apply (session_updates_frame "U1" "C1" (JStr "finance") "hi" "ok" (JStr "x") 30 "default" 0
           (fun _ => FAbsent) Scenarios.empty_kv []); reflexivity.
Defined.

Lemma clear_session_then_get_witness :
  (Z.of_nat 90 - Z.of_nat 30 <= 60 * 1)%Z /\
  exists fs', clear_session "U1" "C1" "default" 30 (fun _ => FAbsent) = ret fs' /\
    get_session "U1" "C1" 1 "default" 90 fs' = ret (_empty_session "U1" "C1" "default" 30) /\
    get_and_clear_pending_action "U1" "C1" 1 "default" 90 fs' = ret (JNull, fs').
Proof.
  split; [lia|]. apply (clear_session_then_get "U1" "C1" 1 "default" 30 90). lia.
Defined.

Lemma session_key_collision_witness :
  (0 <= 30)%Z /\
  get_session "U1" ("C1" ++ "_" ++ "C2") 30 "default" 0 (fun _ => FAbsent) =
    ret (JObj [("user_id", JStr "U1"); ("channel_id", JStr ("C1" ++ "_" ++ "C2"));
               ("session_scope", JStr "default"); ("domain", JStr "");
               ("messages", JArr []); ("pending_action", JNull);
               ("created_at", JStr (isoformat 0)); ("updated_at", JStr (isoformat 0))]) /\
  truthy (JStr "x") = true /\
  _session_path ("U1" ++ "_" ++ "C1") "C2" "default" =
    _session_path "U1" ("C1" ++ "_" ++ "C2") "default" /\
  exists fs1 fs2,
    set_pending_action "U1" ("C1" ++ "_" ++ "C2") (JStr "x") 30 "default" 0
      (fun _ => FAbsent) = ret fs1 /\
    get_and_clear_pending_action ("U1" ++ "_" ++ "C1") "C2" 30 "default" 0 fs1 =
      ret (JStr "x", fs2).
Proof.
  split; [lia|]. split; [reflexivity|]. split; [reflexivity|].
  apply (session_key_collision "U1" "C1" "C2" 30 "default" 0 (fun _ => FAbsent)
           [("user_id", JStr "U1"); ("channel_id", JStr ("C1" ++ "_" ++ "C2"));
            ("session_scope", JStr "default"); ("domain", JStr "");
            ("messages", JArr []); ("pending_action", JNull);
            ("created_at", JStr (isoformat 0)); ("updated_at", JStr (isoformat 0))]);
    first [lia | reflexivity].
Defined.

End SessionFacts.

(** ** Resolving a pending action *)

Module AssistantFacts.
Import Session Assistant SessionFacts Scenarios.

Lemma handle_resolve_none : forall exec_tool value u c ttl scope now fs action fs',
  get_and_clear_pending_action u c ttl scope now fs = ret (action, fs') ->
  truthy action = false ->
  handle_resolve_action exec_tool value u c ttl scope now fs =
    ret (mk_rr NO_PENDING_MSG (JStr "unknown"), None, fs').
Proof.
  intros exec_tool value u c ttl scope now fs action fs' Hg Ht.
  unfold handle_resolve_action. rewrite Hg. cbn [bind ret]. rewrite Ht. reflexivity.
Qed.

(** On a session whose pending slot is empty, resolving answers the fixed
    message and leaves the session files as they were. *)
Lemma resolve_without_pending : forall exec_tool value u c ttl scope now fs kv,
  get_session u c ttl scope now fs = ret (JObj kv) ->
  truthy (match dget "pending_action" kv with Some v => v | None => JNull end) = false ->
  handle_resolve_action exec_tool value u c ttl scope now fs =
    ret (mk_rr NO_PENDING_MSG (JStr "unknown"), None, fs).
Proof.
  intros exec_tool value u c ttl scope now fs kv Hg Ht.
  exact (handle_resolve_none exec_tool value u c ttl scope now fs _ fs
           (get_and_clear_none u c ttl scope now fs kv Hg Ht) Ht).
Qed.

(** Claim C6. The pending slot holds one action: after [set A] then
    [set B] on a session of the key, [get_and_clear] returns [B] and clears
    the slot, a second [get_and_clear] (at any later time) returns [None]
    without writing, and resolving then answers the fixed message with
    domain "unknown" and no change to the session files; the same holds for
    any session whose pending slot is empty. *)
Theorem pending_action_single_slot : forall u c ttl scope now now' fs kv A B,
  get_session u c ttl scope now fs = ret (JObj kv) ->
  dget "user_id" kv = Some (JStr u) -> dget "channel_id" kv = Some (JStr c) ->
  (0 <= ttl)%Z -> truthy B = true ->
  (exists fs1 fs2 fs3,
    set_pending_action u c A ttl scope now fs = ret fs1 /\
    set_pending_action u c B ttl scope now fs1 = ret fs2 /\
    get_and_clear_pending_action u c ttl scope now fs2 = ret (B, fs3) /\
    get_and_clear_pending_action u c ttl scope now' fs3 = ret (JNull, fs3) /\
    (forall exec_tool value,
       handle_resolve_action exec_tool value u c ttl scope now' fs3 =
         ret (mk_rr NO_PENDING_MSG (JStr "unknown"), None, fs3))) /\
  (forall exec_tool value now0 fs0 kv0,
     get_session u c ttl scope now0 fs0 = ret (JObj kv0) ->
     truthy (match dget "pending_action" kv0 with Some v => v | None => JNull end) = false ->
     handle_resolve_action exec_tool value u c ttl scope now0 fs0 =
       ret (mk_rr NO_PENDING_MSG (JStr "unknown"), None, fs0)).
Proof.
  intros u c ttl scope now now' fs kv A B Hg Hu Hc Httl HB.
  split; [|intros exec_tool value now0 fs0 kv0; apply resolve_without_pending].
  assert (Hz : (Z.of_nat now - Z.of_nat now <= 60 * ttl)%Z) by lia.
  destruct (set_pending_step u c A ttl scope now fs kv Hg Hu Hc)
    as (kA & H1 & HAu & HAc & HAt & HAp).
  set (fs1 := fs_write fs (_session_path u c scope) (JObj kA)) in *.
  pose proof (get_session_fresh u c ttl scope now fs1 kA now (fs_write_same _ _ _) HAt Hz) as Hg1.
  destruct (set_pending_step u c B ttl scope now fs1 _ Hg1)
    as (kB & H2 & HBu & HBc & HBt & HBp); [dict_simpl; assumption .. |].
  set (fs2 := fs_write fs1 (_session_path u c scope) (JObj kB)) in *.
  pose proof (get_session_fresh u c ttl scope now fs2 kB now (fs_write_same _ _ _) HBt Hz) as Hg2.
  destruct (get_and_clear_some u c ttl scope now fs2 _ B Hg2)
    as (kC & H3 & HCu & HCc & HCt & HCp); [dict_simpl; assumption .. |].
  set (fs3 := fs_write fs2 (_session_path u c scope) (JObj kC)) in *.
  assert (H4 : get_and_clear_pending_action u c ttl scope now' fs3 = ret (JNull, fs3)).
  { destruct (Z.leb (Z.of_nat now' - Z.of_nat now) (60 * ttl)) eqn:Hle.
    - apply Z.leb_le in Hle.
      pose proof (get_session_fresh u c ttl scope now' fs3 kC now
                    (fs_write_same _ _ _) HCt Hle) as Hg3.
      rewrite (get_and_clear_none u c ttl scope now' fs3 _ Hg3); dict_simpl; rewrite ?HCp;
        reflexivity.
    - apply Z.leb_gt in Hle.
      assert (He : _is_expired (JObj kC) ttl now' = ret true).
      { apply is_expired_true. right; right. exists (isoformat now), now.
        split; [exact HCt|]. split; [apply fromisoformat_isoformat | lia]. }
      pose proof (get_session_expired u c ttl scope now' fs3 kC (fs_write_same _ _ _) He)
        as Hg3.
      unfold _empty_session in Hg3.
      rewrite (get_and_clear_none u c ttl scope now' fs3 _ Hg3); reflexivity. }
  exists fs1, fs2, fs3. split; [exact H1|]. split; [exact H2|]. split; [exact H3|].
  split; [exact H4|].
  intros exec_tool value. exact (handle_resolve_none exec_tool value u c ttl scope now' fs3 _ _ H4
                                   eq_refl).
Qed.

Lemma pending_action_single_slot_witness :
  let kv := [("user_id", JStr "U1"); ("channel_id", JStr "C1");
             ("session_scope", JStr "default"); ("domain", JStr "");
             ("messages", JArr []); ("pending_action", JNull);
             ("created_at", JStr (isoformat 0)); ("updated_at", JStr (isoformat 0))] in
  let A := JObj [("tool", JStr "add_event")] in
  let B := JObj [("tool", JStr "book")] in
  let fs := fun _ : string => FAbsent in
  (get_session "U1" "C1" DEFAULT_TTL "default" 0 fs = ret (JObj kv) /\
   dget "user_id" kv = Some (JStr "U1") /\ dget "channel_id" kv = Some (JStr "C1") /\
   (0 <= DEFAULT_TTL)%Z /\ truthy B = true) /\
  ((exists fs1 fs2 fs3,
    set_pending_action "U1" "C1" A DEFAULT_TTL "default" 0 fs = ret fs1 /\
    set_pending_action "U1" "C1" B DEFAULT_TTL "default" 0 fs1 = ret fs2 /\
    get_and_clear_pending_action "U1" "C1" DEFAULT_TTL "default" 0 fs2 = ret (B, fs3) /\
    get_and_clear_pending_action "U1" "C1" DEFAULT_TTL "default" 60 fs3 = ret (JNull, fs3) /\
    (forall exec_tool value,
       handle_resolve_action exec_tool value "U1" "C1" DEFAULT_TTL "default" 60 fs3 =
         ret (mk_rr NO_PENDING_MSG (JStr "unknown"), None, fs3))) /\
   (forall exec_tool value now0 fs0 kv0,
     get_session "U1" "C1" DEFAULT_TTL "default" now0 fs0 = ret (JObj kv0) ->
     truthy (match dget "pending_action" kv0 with Some v => v | None => JNull end) = false ->
     handle_resolve_action exec_tool value "U1" "C1" DEFAULT_TTL "default" now0 fs0 =
       ret (mk_rr NO_PENDING_MSG (JStr "unknown"), None, fs0))).
Proof.
  intros kv A B fs.
  assert (Hg : get_session "U1" "C1" DEFAULT_TTL "default" 0 fs = ret (JObj kv))
    by reflexivity.
  assert (Httl : (0 <= DEFAULT_TTL)%Z) by (unfold DEFAULT_TTL; lia).
  split; [repeat split; first [exact Hg | exact Httl | reflexivity]|].
  exact (pending_action_single_slot "U1" "C1" DEFAULT_TTL "default" 0 60 fs kv A B
           Hg eq_refl eq_refl Httl eq_refl).
Defined.

Lemma startswith_app : forall p x, startswith p (p ++ x) = true.
Proof.
  induction p as [|a p IH]; intros x; simpl; auto. rewrite Ascii.eqb_refl. apply IH.
Qed.

Lemma string_length_app : forall p x,
  String.length (p ++ x) = String.length p + String.length x.
Proof. induction p as [|a p IH]; intros x; simpl; auto. Qed.

Lemma substring_app : forall p x,
  substring (String.length p) (String.length x) (p ++ x) = x.
Proof.
  induction p as [|a p IH]; intros x; simpl; auto.
  induction x as [|b x IHx]; simpl; auto. f_equal. exact IHx.
Qed.

(** [strip_functions_prefix] removes one leading "functions.". *)
Lemma strip_functions_prefix_app : forall x,
  strip_functions_prefix (FUNCTIONS_PREFIX ++ x) = x.
Proof.
  intros x. unfold strip_functions_prefix. rewrite startswith_app, string_length_app.
  replace (String.length FUNCTIONS_PREFIX + String.length x - String.length FUNCTIONS_PREFIX)
    with (String.length x) by lia.
  apply substring_app.
Qed.

Lemma strip_functions_prefix_id : forall x,
  startswith FUNCTIONS_PREFIX x = false -> strip_functions_prefix x = x.
Proof. intros x H. unfold strip_functions_prefix. rewrite H. reflexivity. Qed.

(** Claim C10 fails for a stored tool name that itself starts with
    "functions.": only one prefix is stripped, so "functions.X" and "X"
    reach the executor under different names for X = "functions.book". *)
Lemma functions_prefix_stripped_once :
  invocation_of (handle_resolve_action tool_echo "mon" "U1" "C1" DEFAULT_TTL "default" 0
                   (pending_files ("functions." ++ "functions.book"))) =
    Some ("functions.book", JObj [("title", JStr "meeting"); ("day", JStr "mon")]) /\
  invocation_of (handle_resolve_action tool_echo "mon" "U1" "C1" DEFAULT_TTL "default" 0
                   (pending_files "functions.book")) =
    Some ("book", JObj [("title", JStr "meeting"); ("day", JStr "mon")]) /\
  invocation_of (handle_resolve_action tool_echo "mon" "U1" "C1" DEFAULT_TTL "default" 0
                   (pending_files ("functions." ++ "functions.book"))) <>
  invocation_of (handle_resolve_action tool_echo "mon" "U1" "C1" DEFAULT_TTL "default" 0
                   (pending_files "functions.book")).
Proof.
  split; [vm_compute; reflexivity|]. split; [vm_compute; reflexivity|].
  vm_compute. intros H. discriminate H.
Qed.

(** Claim C10, amended. For a tool name [X] that does not itself start with
    "functions.", resolving a pending action whose tool is "functions.X"
    gives exactly what resolving the same action with tool [X] gives: the
    same reply, the same executor invocation (tool name and args with
    [args[field_name]] set to the chosen value) and the same session files. *)
Theorem resolve_strips_functions_prefix :
  forall exec_tool value u c ttl scope now fs act X,
  startswith FUNCTIONS_PREFIX X = false ->
  resolve_pending exec_tool value u c ttl scope now
    (JObj (dset "tool" (JStr (FUNCTIONS_PREFIX ++ X)) act)) fs =
  resolve_pending exec_tool value u c ttl scope now (JObj (dset "tool" (JStr X) act)) fs.
Proof.
  intros exec_tool value u c ttl scope now fs act X HX.
  unfold resolve_pending.
  destruct (get_session u c ttl scope now fs) as [e|session]; [reflexivity|].
  cbn [bind]. destruct (py_get session "domain" (JStr "schedule")) as [e|domain];
    [reflexivity|].
  cbn [bind py_get ret]. rewrite !dget_dset_eq. cbn [bind ret].
  rewrite strip_functions_prefix_app, (strip_functions_prefix_id X HX).
  dict_simpl. reflexivity.
Qed.

Lemma resolve_strips_functions_prefix_witness :
  let act := [("tool", JStr "book"); ("args", JObj [("title", JStr "meeting")]);
              ("field_name", JStr "day")] in
  startswith FUNCTIONS_PREFIX "book" = false /\
  resolve_pending tool_echo "mon" "U1" "C1" DEFAULT_TTL "default" 0
    (JObj (dset "tool" (JStr (FUNCTIONS_PREFIX ++ "book")) act)) (pending_files "book") =
  resolve_pending tool_echo "mon" "U1" "C1" DEFAULT_TTL "default" 0
    (JObj (dset "tool" (JStr "book") act)) (pending_files "book").
Proof.
  intros act. split; [reflexivity|].
  apply (resolve_strips_functions_prefix tool_echo "mon" "U1" "C1" DEFAULT_TTL "default" 0
           (pending_files "book") act "book").
  reflexivity.
Defined.

(** [get_and_clear_pending_action] on a session holding an action: the
    session written back differs only in "session_scope",
    "pending_action" (now null) and "updated_at". *)
Lemma get_and_clear_frame : forall u c ttl scope now fs kv action,
  get_session u c ttl scope now fs = ret (JObj kv) ->
  dget "user_id" kv = Some (JStr u) -> dget "channel_id" kv = Some (JStr c) ->
  dget "pending_action" kv = Some action -> truthy action = true ->
  exists kv',
    get_and_clear_pending_action u c ttl scope now fs =
      ret (action, fs_write fs (_session_path u c scope) (JObj kv')) /\
    dget "updated_at" kv' = Some (JStr (isoformat now)) /\
    dget "pending_action" kv' = Some JNull /\
    forall k, k <> "session_scope" -> k <> "pending_action" -> k <> "updated_at" ->
              dget k kv' = dget k kv.
Proof.
  intros u c ttl scope now fs kv action Hg Hu Hc Hp Ht.
  unfold get_and_clear_pending_action. rewrite Hg. cbn [bind py_setitem py_get ret].
  dict_simpl. rewrite Hp, Ht. cbn [bind py_setitem ret].
  rewrite (save_session_stored fs u c scope); [| dict_simpl; first [assumption | reflexivity] ..].
  eexists. split; [reflexivity|]. dict_simpl. split; [reflexivity|]. split; [reflexivity|].
  intros k H1 H2 H3. rewrite !dget_dset_neq by assumption. reflexivity.
Qed.

Lemma json_obj_truthy : forall kv k v, dget k kv = Some v -> truthy (JObj kv) = true.
Proof. intros [|x kv] k v H; [discriminate | reflexivity]. Qed.

(** A session read back within the TTL after [get_and_clear] has no
    pending action to resolve. *)
Lemma resolve_after_clear : forall exec_tool value u c ttl scope now fs kv,
  fs (_session_path u c scope) = FJson (JObj kv) ->
  dget "updated_at" kv = Some (JStr (isoformat now)) ->
  dget "pending_action" kv = Some JNull -> (0 <= ttl)%Z ->
  handle_resolve_action exec_tool value u c ttl scope now fs =
    ret (mk_rr NO_PENDING_MSG (JStr "unknown"), None, fs).
Proof.
  intros exec_tool value u c ttl scope now fs kv Hf Ht Hp Httl.
  apply (resolve_without_pending exec_tool value u c ttl scope now fs
           (dset "session_scope" (JStr (or_default scope)) kv)).
  - apply (get_session_fresh u c ttl scope now fs kv now Hf Ht). lia.
  - dict_simpl. rewrite Hp. reflexivity.
Qed.

(** Once the session has outlived its TTL, its pending action is gone:
    [get_and_clear_pending_action] returns None without writing, and a
    button click is answered with the fixed "no pending action" message. *)
Theorem resolve_after_ttl_has_no_pending : forall exec_tool value u c ttl scope now fs kv t,
  fs (_session_path u c scope) = FJson (JObj kv) ->
  dget "updated_at" kv = Some (JStr (isoformat t)) ->
  (Z.of_nat now - Z.of_nat t > 60 * ttl)%Z ->
  get_and_clear_pending_action u c ttl scope now fs = ret (JNull, fs) /\
  handle_resolve_action exec_tool value u c ttl scope now fs =
    ret (mk_rr NO_PENDING_MSG (JStr "unknown"), None, fs).
Proof.
  intros exec_tool value u c ttl scope now fs kv t Hf Hu Hgt.
  assert (Hg : get_session u c ttl scope now fs = ret (_empty_session u c scope now)).
  { apply (get_session_expired u c ttl scope now fs kv Hf). apply is_expired_true.
    right; right. exists (isoformat t), t. split; [exact Hu|].
    split; [apply fromisoformat_isoformat | exact Hgt]. }
  unfold _empty_session in Hg.
  pose proof (get_and_clear_none u c ttl scope now fs _ Hg eq_refl) as H.
  split; [exact H|]. exact (handle_resolve_none exec_tool value u c ttl scope now fs _ fs H eq_refl).
Qed.

(** A pending action whose session domain has no executor is consumed
    anyway: the reply names the domain, no tool runs, and the next click
    finds no pending action. *)
Theorem resolve_unknown_domain_drops_action :
  forall exec_tool value u c ttl scope now fs kv akv tool args fld domain,
  (0 <= ttl)%Z ->
  get_session u c ttl scope now fs = ret (JObj kv) ->
  dget "user_id" kv = Some (JStr u) -> dget "channel_id" kv = Some (JStr c) ->
  dget "pending_action" kv = Some (JObj akv) ->
  dget "domain" kv = Some domain -> _get_domain_exec_tool domain = None ->
  dget "tool" akv = Some (JStr tool) -> dget "args" akv = Some (JObj args) ->
  dget "field_name" akv = Some (JStr fld) ->
  exists fs1,
    handle_resolve_action exec_tool value u c ttl scope now fs =
      ret (mk_rr ("도메인 '" ++ py_str domain ++ "'의 도구를 찾을 수 없습니다.") domain,
           None, fs1) /\
    handle_resolve_action exec_tool value u c ttl scope now fs1 =
      ret (mk_rr NO_PENDING_MSG (JStr "unknown"), None, fs1).
Proof.
  intros exec_tool value u c ttl scope now fs kv akv tool args fld domain
    Httl Hg Hu Hc Hp Hd Hx Htool Hargs Hfld.
  destruct (get_and_clear_frame u c ttl scope now fs kv (JObj akv) Hg Hu Hc Hp
              (json_obj_truthy _ _ _ Htool)) as (kv' & H1 & Ht' & Hp' & Hfr).
  set (fs1 := fs_write fs (_session_path u c scope) (JObj kv')) in *.
  assert (Hg1 : get_session u c ttl scope now fs1 =
                ret (JObj (dset "session_scope" (JStr (or_default scope)) kv')))
    by (apply (get_session_fresh u c ttl scope now fs1 kv' now (fs_write_same _ _ _) Ht'); lia).
  exists fs1. split.
  - unfold handle_resolve_action. rewrite H1. cbn [bind ret].
    rewrite (json_obj_truthy _ _ _ Htool). cbn [negb].
    unfold resolve_pending. rewrite Hg1. cbn [bind py_get ret].
    rewrite dget_dset_neq by discriminate.
    rewrite (Hfr "domain") by discriminate. rewrite Hd.
    cbn [bind ret]. rewrite Htool. cbn [bind ret].
    rewrite Hargs, Hfld. cbn [bind ret py_setitem]. rewrite Hx. reflexivity.
  - exact (resolve_after_clear exec_tool value u c ttl scope now fs1 kv'
             (fs_write_same _ _ _) Ht' Hp' Httl).
Qed.

(** Resolving a pending action whose session domain has an executor runs
    that executor once, on the tool name without its "functions." prefix
    and the args with [args[field_name]] set to the chosen value; the
    session is stored with the pending slot cleared and the turn
    "[버튼 선택: value]" / reply appended to its messages window. *)
Theorem resolve_runs_tool_and_records_turn :
  forall exec_tool value u c ttl scope now fs kv akv tool args fld domain d acc,
  (0 <= ttl)%Z ->
  get_session u c ttl scope now fs = ret (JObj kv) ->
  dget "user_id" kv = Some (JStr u) -> dget "channel_id" kv = Some (JStr c) ->
  dget "pending_action" kv = Some (JObj akv) ->
  dget "domain" kv = Some domain -> _get_domain_exec_tool domain = Some d ->
  dget "messages" kv = Some (JArr acc) ->
  dget "tool" akv = Some (JStr tool) -> dget "args" akv = Some (JObj args) ->
  dget "field_name" akv = Some (JStr fld) ->
  let call_args := JObj (dset fld (JStr value) args) in
  let resp := exec_tool d (strip_functions_prefix tool) call_args in
  exists fs' kv',
    handle_resolve_action exec_tool value u c ttl scope now fs =
      ret (mk_rr resp domain, Some (strip_functions_prefix tool, call_args), fs') /\
    fs' (_session_path u c scope) = FJson (JObj kv') /\
    dget "pending_action" kv' = Some JNull /\
    dget "messages" kv' =
      Some (JArr (window_step acc (mk_turn now domain ("[버튼 선택: " ++ value ++ "]") resp))).
Proof.
  intros exec_tool value u c ttl scope now fs kv akv tool args fld domain d acc
    Httl Hg Hu Hc Hp Hd Hx Hm Htool Hargs Hfld call_args resp.
  destruct (get_and_clear_frame u c ttl scope now fs kv (JObj akv) Hg Hu Hc Hp
              (json_obj_truthy _ _ _ Htool)) as (kv' & H1 & Ht' & Hp' & Hfr).
  set (fs1 := fs_write fs (_session_path u c scope) (JObj kv')) in *.
  set (kv1 := dset "session_scope" (JStr (or_default scope)) kv').
  assert (Hg1 : get_session u c ttl scope now fs1 = ret (JObj kv1))
    by (apply (get_session_fresh u c ttl scope now fs1 kv' now (fs_write_same _ _ _) Ht'); lia).
  assert (Hk : forall k, k <> "session_scope" -> k <> "pending_action" -> k <> "updated_at" ->
                 dget k kv1 = dget k kv)
    by (intros k H2 H3 H4; unfold kv1; rewrite dget_dset_neq by assumption; auto).
  set (t := mk_turn now domain ("[버튼 선택: " ++ value ++ "]") resp).
  destruct (update_step u c ttl scope fs1 t kv1 acc Hg1) as (kv2 & Hup & _ & _ & _ & Hm2);
    [rewrite Hk by discriminate; assumption .. |].
  destruct (session_updates_frame u c domain ("[버튼 선택: " ++ value ++ "]") resp JNull
              ttl scope now fs1 kv1 acc Hg1) as [(kv3 & Hup3 & Hfr3) _];
    [rewrite Hk by discriminate; assumption .. |].
  assert (E : kv3 = kv2).
  { change (update_session u c (t_domain t) (t_user t) (t_assistant t) ttl scope (t_now t) fs1
            = ret (fs_write fs1 (_session_path u c scope) (JObj kv2))) in Hup.
    cbn [t_domain t_user t_assistant t_now t] in Hup. rewrite Hup in Hup3.
    injection Hup3 as Hw. apply (f_equal (fun g => g (_session_path u c scope))) in Hw.
    rewrite !fs_write_same in Hw. injection Hw as ->. reflexivity. }
  subst kv3.
  exists (fs_write fs1 (_session_path u c scope) (JObj kv2)), kv2. split; [|split; [|split]].
  - unfold handle_resolve_action. rewrite H1. cbn [bind ret].
    rewrite (json_obj_truthy _ _ _ Htool). cbn [negb].
    unfold resolve_pending. rewrite Hg1. cbn [bind py_get ret].
    rewrite Hk by discriminate. rewrite Hd.
    cbn [bind ret]. rewrite Htool. cbn [bind ret].
    rewrite Hargs, Hfld. cbn [bind ret py_setitem]. rewrite Hx.
    change (update_session u c (t_domain t) (t_user t) (t_assistant t) ttl scope (t_now t) fs1
            = ret (fs_write fs1 (_session_path u c scope) (JObj kv2))) in Hup.
    cbn [t_domain t_user t_assistant t_now t] in Hup. unfold resp, call_args in Hup.
    rewrite Hup. reflexivity.
  - apply fs_write_same.
  - rewrite Hfr3 by discriminate. unfold kv1. dict_simpl. exact Hp'.
  - exact Hm2.
Qed.

Lemma or_default_nonempty : forall s, or_default s <> "".
Proof.
  intros s. unfold or_default. destruct (String.eqb s "") eqn:E; [discriminate|].
  intros H. subst s. discriminate E.
Qed.

Lemma parse_args_from_inv : forall json_loads py_int n argv o,
  length argv <= n ->
  (1 <= o_session_ttl o)%Z -> o_session_scope o <> "" ->
  let o' := parse_args_from json_loads py_int argv o in
  (1 <= o_session_ttl o')%Z /\ o_session_scope o' <> "" /\
  (forall a, In a (o_cleaned o') -> In a (o_cleaned o) \/ In a argv) /\
  length (o_cleaned o') <= length (o_cleaned o) + length argv /\
  (Forall not_flag argv ->
     o' = mk_opts (o_cleaned o ++ argv)%list (o_image_urls o) (o_session_ttl o)
                  (o_session_scope o)).
Proof.
  intros json_loads py_int n. induction n as [|n IH]; intros argv o Hn Ht Hs o'.
  - destruct argv; [|simpl in Hn; lia]. subst o'. simpl.
    repeat split; auto; [lia|]. intros _. rewrite app_nil_r. destruct o; reflexivity.
  - destruct argv as [|a rest].
    + subst o'. simpl. repeat split; auto; [lia|]. intros _. rewrite app_nil_r.
      destruct o; reflexivity.
    + simpl in Hn.
      assert (Hkeep : forall argv', argv' = rest ->
        let o2 := parse_args_from json_loads py_int argv'
                    (mk_opts (o_cleaned o ++ [a])%list (o_image_urls o) (o_session_ttl o)
                             (o_session_scope o)) in
        (1 <= o_session_ttl o2)%Z /\ o_session_scope o2 <> "" /\
        (forall x, In x (o_cleaned o2) -> In x (o_cleaned o) \/ In x (a :: rest)) /\
        length (o_cleaned o2) <= length (o_cleaned o) + length (a :: rest) /\
        (Forall not_flag (a :: rest) ->
           o2 = mk_opts (o_cleaned o ++ a :: rest)%list (o_image_urls o) (o_session_ttl o)
                        (o_session_scope o))).
      { intros argv' ->. cbv zeta.
        destruct (IH rest (mk_opts (o_cleaned o ++ [a])%list (o_image_urls o) (o_session_ttl o)
                                   (o_session_scope o)) ltac:(lia) Ht Hs)
          as (H1 & H2 & H3 & H4 & H5).
        cbn [o_cleaned o_session_ttl o_session_scope o_image_urls] in *.
        split; [exact H1|]. split; [exact H2|]. split; [|split].
        - intros x Hx. apply H3 in Hx. rewrite in_app_iff in Hx. simpl in *. tauto.
        - rewrite length_app in H4. simpl in *. lia.
        - intros Hf. inversion Hf as [|? ? _ Hf']. rewrite (H5 Hf').
          rewrite <- app_assoc. reflexivity. }
      assert (Hskip : forall v rest' o1, rest = v :: rest' ->
        o_cleaned o1 = o_cleaned o -> (1 <= o_session_ttl o1)%Z -> o_session_scope o1 <> "" ->
        let o2 := parse_args_from json_loads py_int rest' o1 in
        (1 <= o_session_ttl o2)%Z /\ o_session_scope o2 <> "" /\
        (forall x, In x (o_cleaned o2) -> In x (o_cleaned o) \/ In x (a :: rest)) /\
        length (o_cleaned o2) <= length (o_cleaned o) + length (a :: rest)).
      { intros v rest' o1 -> Hc Ht1 Hs1. cbv zeta.
        destruct (IH rest' o1 ltac:(simpl in Hn; lia) Ht1 Hs1) as (H1 & H2 & H3 & H4 & _).
        rewrite Hc in H3, H4. split; [exact H1|]. split; [exact H2|]. split.
        - intros x Hx. apply H3 in Hx. simpl. tauto.
        - simpl. lia. }
      subst o'. cbn [parse_args_from].
      destruct rest as [|v rest'].
      * apply Hkeep. reflexivity.
      * destruct (String.eqb a "--images") eqn:E1;
          [|destruct (String.eqb a "--session-ttl") eqn:E2;
            [|destruct (String.eqb a "--session-scope") eqn:E3]].
        4: apply Hkeep; reflexivity.
        all: lazymatch goal with
             | |- context [parse_args_from _ _ _ ?o1] =>
                 destruct (Hskip v rest' o1 eq_refl eq_refl) as (H1 & H2 & H3 & H4);
                 [ cbn [o_session_ttl]; first [assumption | destruct (py_int v); lia]
                 | cbn [o_session_scope]; first [assumption | apply or_default_nonempty]
                 | ]
             end.
        all: split; [exact H1|]; split; [exact H2|]; split; [exact H3|];
          split; [exact H4|]; intros Hf; inversion Hf as [|? ? Ha _];
          destruct Ha as (Ha1 & Ha2 & Ha3);
          first [ apply String.eqb_eq in E1 | apply String.eqb_eq in E2
                | apply String.eqb_eq in E3 ]; contradiction.
Qed.

(** [_parse_optional_args] always yields a TTL of at least one minute and
    a non-empty scope; the cleaned argv only holds entries of argv, no
    more of them; and an argv without any of the three flags comes back
    unchanged with the defaults: no images, 30 minutes, "default". *)
Theorem parse_optional_args_spec : forall json_loads py_int argv,
  let o := _parse_optional_args json_loads py_int argv in
  (1 <= o_session_ttl o)%Z /\ o_session_scope o <> "" /\
  (forall a, In a (o_cleaned o) -> In a argv) /\
  length (o_cleaned o) <= length argv /\
  (Forall not_flag argv -> o = mk_opts argv [] 30 "default").
Proof.
  intros json_loads py_int argv o.
  destruct (parse_args_from_inv json_loads py_int (length argv) argv (mk_opts [] [] 30 "default")
              (le_n _) ltac:(simpl; lia) ltac:(discriminate)) as (H1 & H2 & H3 & H4 & H5).
  split; [exact H1|]. split; [exact H2|]. split; [|split].
  - intros a Ha. destruct (H3 a Ha) as [[]|]; assumption.
  - exact H4.
  - exact H5.
Qed.

Lemma resolve_after_ttl_has_no_pending_witness :
  pending_store "schedule" "book" (_session_path "U1" "C1" "default") =
    FJson (JObj (pending_kv "schedule" "book")) /\
  dget "updated_at" (pending_kv "schedule" "book") = Some (JStr (isoformat 0)) /\
  (Z.of_nat 4000 - Z.of_nat 0 > 60 * DEFAULT_TTL)%Z /\
  get_and_clear_pending_action "U1" "C1" DEFAULT_TTL "default" 4000
    (pending_store "schedule" "book") = ret (JNull, pending_store "schedule" "book") /\
  handle_resolve_action tool_echo "mon" "U1" "C1" DEFAULT_TTL "default" 4000
    (pending_store "schedule" "book") =
    ret (mk_rr NO_PENDING_MSG (JStr "unknown"), None, pending_store "schedule" "book").
Proof.
  split; [reflexivity|]. split; [reflexivity|]. split; [unfold DEFAULT_TTL; lia|].
  apply (resolve_after_ttl_has_no_pending tool_echo "mon" "U1" "C1" DEFAULT_TTL "default" 4000
           (pending_store "schedule" "book") (pending_kv "schedule" "book") 0);
    [reflexivity | reflexivity | unfold DEFAULT_TTL; lia].
Defined.

Lemma resolve_unknown_domain_drops_action_witness :
  (0 <= DEFAULT_TTL)%Z /\
  get_session "U1" "C1" DEFAULT_TTL "default" 0 (pending_store "general" "book") =
    ret (JObj (pending_kv "general" "book")) /\
  dget "pending_action" (pending_kv "general" "book") = Some (JObj (pending_action_of "book")) /\
  _get_domain_exec_tool (JStr "general") = None /\
  exists fs1,
    handle_resolve_action tool_echo "mon" "U1" "C1" DEFAULT_TTL "default" 0
      (pending_store "general" "book") =
      ret (mk_rr ("도메인 '" ++ py_str (JStr "general") ++ "'의 도구를 찾을 수 없습니다.")
                 (JStr "general"), None, fs1) /\
    handle_resolve_action tool_echo "mon" "U1" "C1" DEFAULT_TTL "default" 0 fs1 =
      ret (mk_rr NO_PENDING_MSG (JStr "unknown"), None, fs1).
Proof.
  split; [unfold DEFAULT_TTL; lia|]. split; [reflexivity|]. split; [reflexivity|].
  split; [reflexivity|].
  apply (resolve_unknown_domain_drops_action tool_echo "mon" "U1" "C1" DEFAULT_TTL "default" 0
           (pending_store "general" "book") (pending_kv "general" "book")
           (pending_action_of "book") "book" [("title", JStr "meeting")] "day" (JStr "general"));
    first [unfold DEFAULT_TTL; lia | reflexivity].
Defined.

Lemma resolve_runs_tool_and_records_turn_witness :
  (0 <= DEFAULT_TTL)%Z /\
  get_session "U1" "C1" DEFAULT_TTL "default" 0 (pending_store "schedule" "functions.book") =
    ret (JObj (pending_kv "schedule" "functions.book")) /\
  _get_domain_exec_tool (JStr "schedule") = Some "schedule" /\
  exists fs' kv',
    handle_resolve_action tool_echo "mon" "U1" "C1" DEFAULT_TTL "default" 0
      (pending_store "schedule" "functions.book") =
      ret (mk_rr (tool_echo "schedule" (strip_functions_prefix "functions.book")
                    (JObj (dset "day" (JStr "mon") [("title", JStr "meeting")])))
                 (JStr "schedule"),
           Some (strip_functions_prefix "functions.book",
                 JObj (dset "day" (JStr "mon") [("title", JStr "meeting")])), fs') /\
    fs' (_session_path "U1" "C1" "default") = FJson (JObj kv') /\
    dget "pending_action" kv' = Some JNull /\
    dget "messages" kv' =
      Some (JArr (window_step [] (mk_turn 0 (JStr "schedule") ("[버튼 선택: " ++ "mon" ++ "]")
        (tool_echo "schedule" (strip_functions_prefix "functions.book")
           (JObj (dset "day" (JStr "mon") [("title", JStr "meeting")])))))).
Proof.
  split; [unfold DEFAULT_TTL; lia|]. split; [reflexivity|]. split; [reflexivity|].
  apply (resolve_runs_tool_and_records_turn tool_echo "mon" "U1" "C1" DEFAULT_TTL "default" 0
           (pending_store "schedule" "functions.book") (pending_kv "schedule" "functions.book")
           (pending_action_of "functions.book") "functions.book" [("title", JStr "meeting")]
           "day" (JStr "schedule") "schedule" []);
    first [unfold DEFAULT_TTL; lia | reflexivity].
Defined.

End AssistantFacts.

(** ** Domain classification *)

Module ClassifyFacts.
Import Agent Classify.

Lemma dset_fresh : forall {A} k (v : A) d,
  dget k d = None -> dset k v d = (d ++ [(k, v)])%list.
Proof.
  intros A k v d. induction d as [|[k' v'] d IH]; simpl; auto.
  destruct (String.eqb k k'); [discriminate|]. intros H. f_equal. auto.
Qed.

Lemma nodup_keys_unique : forall {A B} (l : list (A * B)) k v1 v2,
  NoDup (map fst l) -> In (k, v1) l -> In (k, v2) l -> v1 = v2.
Proof.
  intros A B l. induction l as [|[k0 v0] l IH]; intros k v1 v2 Hnd H1 H2; [contradiction|].
  simpl in Hnd. inversion Hnd as [|? ? Hnin Hnd']; subst.
  destruct H1 as [H1|H1], H2 as [H2|H2].
  - congruence.
  - injection H1 as -> ->. exfalso. apply Hnin. apply (in_map fst) in H2. exact H2.
  - injection H2 as -> ->. exfalso. apply Hnin. apply (in_map fst) in H1. exact H1.
  - exact (IH k v1 v2 Hnd' H1 H2).
Qed.

Lemma nodup_keys_filter : forall {A B} (f : A * B -> bool) l,
  NoDup (map fst l) -> NoDup (map fst (filter f l)).
Proof.
  intros A B f l. induction l as [|x l IH]; intros Hnd; simpl; [constructor|].
  inversion Hnd as [|? ? Hnin Hnd']; subst.
  destruct (f x); simpl; auto. constructor; auto.
  intros Hin. apply Hnin. apply in_map_iff in Hin. destruct Hin as (y & Hy & Hin).
  apply filter_In in Hin. rewrite <- Hy. apply in_map. tauto.
Qed.

(** With distinct domains, [scores] lists the domains of positive score in
    the order of [domain_keywords]. *)
Lemma build_scores_eq : forall msg dk,
  NoDup (map fst dk) ->
  build_scores msg dk =
    filter (fun p => Nat.ltb 0 (snd p)) (map (fun '(d, kw) => (d, score msg kw)) dk).
Proof.
  intros msg dk Hnd. unfold build_scores.
  assert (G : forall acc, (forall d, In d (map fst dk) -> dget d acc = None) ->
     fold_left (fun scores '(domain, keywords) =>
                  let sc := score msg keywords in
                  if Nat.ltb 0 sc then dset domain sc scores else scores) dk acc =
     (acc ++ filter (fun p => Nat.ltb 0 (snd p))
                    (map (fun '(d, kw) => (d, score msg kw)) dk))%list).
  { induction dk as [|[d kw] dk IH]; intros acc Hacc; simpl.
    - rewrite app_nil_r. reflexivity.
    - inversion Hnd as [|? ? Hnin Hnd']; subst.
      destruct (Nat.ltb 0 (score msg kw)) eqn:E.
      + rewrite IH; auto.
        * rewrite dset_fresh by (apply Hacc; left; reflexivity).
          rewrite <- app_assoc. reflexivity.
        * intros d' Hd'. rewrite dget_dset_neq; [apply Hacc; right; exact Hd'|].
          intros ->. contradiction.
      + apply IH; auto. intros d' Hd'. apply Hacc. right. exact Hd'. }
  apply G. intros. reflexivity.
Qed.

Lemma in_scores : forall msg (dk : list (string * list string)) (d : string) (s : nat),
  In (d, s) (filter (fun p => Nat.ltb 0 (snd p)) (map (fun '(d, kw) => (d, score msg kw)) dk)) <->
  exists kw, In (d, kw) dk /\ s = score msg kw /\ 0 < s.
Proof.
  intros msg dk d s. rewrite filter_In, in_map_iff. split.
  - intros (([d' kw] & Heq & Hin) & Hlt). injection Heq as <- <-.
    apply Nat.ltb_lt in Hlt. exists kw. auto.
  - intros (kw & Hin & -> & Hlt). split; [exists (d, kw); auto|]. apply Nat.ltb_lt. exact Hlt.
Qed.

Lemma scores_keys : forall msg (dk : list (string * list string)),
  NoDup (map fst dk) ->
  NoDup (map fst (filter (fun p => Nat.ltb 0 (snd p))
                         (map (fun '(d, kw) => (d, score msg kw)) dk))).
Proof.
  intros msg dk Hnd. apply nodup_keys_filter.
  replace (map fst (map (fun '(d, kw) => (d, score msg kw)) dk)) with (map fst dk); [exact Hnd|].
  rewrite map_map. apply map_ext. intros [d kw]. reflexivity.
Qed.

Lemma max_from_in : forall l b, In (max_from b l) (b :: l).
Proof.
  induction l as [|[k v] l IH]; intros b; simpl; [auto|].
  destruct (Nat.ltb (snd b) v).
  - specialize (IH (k, v)). simpl in IH. tauto.
  - specialize (IH b). simpl in IH. tauto.
Qed.

Lemma max_from_ge : forall l b x, In x (b :: l) -> snd x <= snd (max_from b l).
Proof.
  induction l as [|[k v] l IH]; intros b x Hx; simpl.
  - destruct Hx as [<-|[]]. lia.
  - destruct (Nat.ltb (snd b) v) eqn:E.
    + apply Nat.ltb_lt in E. destruct Hx as [<-|Hx].
      * specialize (IH (k, v) (k, v) (or_introl eq_refl)). simpl in IH. lia.
      * apply IH. exact Hx.
    + apply Nat.ltb_ge in E. destruct Hx as [<-|[<-|Hx]].
      * apply IH. left. reflexivity.
      * specialize (IH b b (or_introl eq_refl)). simpl in *. lia.
      * apply IH. right. exact Hx.
Qed.

Lemma tied_one : forall (L : list (string * nat)) d top,
  NoDup (map fst L) -> In (d, top) L ->
  (forall d' s, In (d', s) L -> s = top -> d' = d) ->
  length (filter (fun '(_, sc) => Nat.eqb sc top) L) = 1.
Proof.
  induction L as [|[d0 s0] L IH]; intros d top Hnd Hin Honly; [contradiction|].
  simpl in Hnd. inversion Hnd as [|? ? Hnin Hnd']; subst. simpl.
  destruct (Nat.eqb s0 top) eqn:E.
  - apply Nat.eqb_eq in E. subst s0.
    assert (Hd : d0 = d) by (apply (Honly d0 top); [left|]; reflexivity). subst d0.
    simpl. f_equal.
    assert (Hnil : forall l, (forall d' s, In (d', s) l -> s = top -> d' = d) ->
                   ~ In d (map fst l) -> filter (fun '(_, sc) => Nat.eqb sc top) l = []).
    { induction l as [|[d1 s1] l IHl]; intros Ho Hn; simpl; auto.
      destruct (Nat.eqb s1 top) eqn:E1.
      - apply Nat.eqb_eq in E1. exfalso. apply Hn. left. simpl.
        apply (Ho d1 s1); [left; reflexivity | exact E1].
      - apply IHl; [intros d' s Hi; apply Ho; right; exact Hi |].
        intros Hi. apply Hn. right. exact Hi. }
    rewrite Hnil; [reflexivity | | exact Hnin].
    intros d' s Hi. apply Honly. right. exact Hi.
  - destruct Hin as [Heq|Hin]; [injection Heq as -> ->; rewrite Nat.eqb_refl in E; discriminate|].
    apply (IH d top Hnd' Hin). intros d' s Hi. apply Honly. right. exact Hi.
Qed.

Lemma two_le_length : forall {A} (l : list A) a b,
  In a l -> In b l -> a <> b -> 2 <= length l.
Proof.
  intros A l a b Ha Hb Hab. destruct l as [|x [|y l]]; simpl in *; try lia.
  destruct Ha as [<-|[]], Hb as [<-|[]]. contradiction.
Qed.

(** Claim C8, amended. For every iteration order of the valid set and
    distinct domains: if exactly one domain has the highest positive
    keyword score, it is returned with no LLM call; if no keyword matched,
    or two domains share the highest score, one LLM call is made and the
    answer, stripped and lower-cased, is scanned for the valid tokens in
    the iteration order of the set, the first token of that order found in
    the text being returned, and "schedule" when there is none. *)
Theorem classify_domain_phases : forall llm order message dk,
  NoDup (map fst dk) ->
  (forall d kw, In (d, kw) dk -> 0 < score (lower message) kw ->
     (forall d' kw', In (d', kw') dk -> d' <> d ->
        score (lower message) kw' < score (lower message) kw) ->
     classify_domain llm order message dk = (ret d, 0)) /\
  ((forall d kw, In (d, kw) dk -> score (lower message) kw = 0) \/
   (exists d1 kw1 d2 kw2, In (d1, kw1) dk /\ In (d2, kw2) dk /\ d1 <> d2 /\
      0 < score (lower message) kw1 /\
      score (lower message) kw2 = score (lower message) kw1 /\
      (forall d kw, In (d, kw) dk -> score (lower message) kw <= score (lower message) kw1)) ->
   classify_domain llm order message dk =
     ((r <- llm (classifier_messages message dk) ;;
       content <- Providers.content_str r ;;
       ret (scan order (lower (strip content)))), 1)).
Proof.
  intros llm order message dk Hnd.
  pose proof (scores_keys (lower message) dk Hnd) as HndL.
  pose proof (in_scores (lower message) dk) as HinL.
  split.
  - intros d kw Hin Hpos Hmax. unfold classify_domain. cbv zeta.
    rewrite (build_scores_eq _ _ Hnd).
    assert (Hd : In (d, score (lower message) kw)
                   (filter (fun p => Nat.ltb 0 (snd p))
                      (map (fun '(d, kw) => (d, score (lower message) kw)) dk)))
      by (apply HinL; eauto).
    destruct (filter _ _) as [|first rest] eqn:HL; [contradiction|].
    assert (Hbest : fst (max_from first rest) = d /\
                    snd (max_from first rest) = score (lower message) kw).
    { pose proof (max_from_in rest first) as Hb.
      destruct (max_from first rest) as [db sb] eqn:Eb.
      pose proof (max_from_ge rest first (d, score (lower message) kw)) as Hge.
      specialize (Hge Hd).
      rewrite Eb in Hge. simpl in Hge.
      apply HinL in Hb. destruct Hb as (kwb & Hinb & -> & Hposb).
      destruct (String.eqb db d) eqn:Edb.
      - apply String.eqb_eq in Edb. subst db. simpl. split; [reflexivity|].
        f_equal. exact (nodup_keys_unique dk d kwb kw Hnd Hinb Hin).
      - apply String.eqb_neq in Edb. specialize (Hmax db kwb Hinb Edb). lia. }
    destruct Hbest as [Hf Hs]. rewrite Hs, Hf.
    rewrite (tied_one _ d _ HndL Hd); [reflexivity|].
    intros d' s Hi ->. apply HinL in Hi. destruct Hi as (kw' & Hin' & Heq & _).
    destruct (String.eqb d' d) eqn:E; [apply String.eqb_eq; exact E|].
    apply String.eqb_neq in E. specialize (Hmax d' kw' Hin' E). lia.
  - intros Hcase. unfold classify_domain. cbv zeta.
    rewrite (build_scores_eq _ _ Hnd).
    destruct (filter _ _) as [|first rest] eqn:HL; [reflexivity|].
    destruct Hcase as [Hzero | (d1 & kw1 & d2 & kw2 & H1 & H2 & H12 & Hpos & Heq & Hmax)].
    + exfalso. assert (Hf : In first (first :: rest)) by (left; reflexivity).
      destruct first as [d s].
      apply HinL in Hf. destruct Hf as (kw & Hin & -> & Hlt).
      rewrite (Hzero d kw Hin) in Hlt. lia.
    + assert (Htop : snd (max_from first rest) = score (lower message) kw1).
      { pose proof (max_from_in rest first) as Hb.
        destruct (max_from first rest) as [db sb] eqn:Eb.
        assert (Hd1 : In (d1, score (lower message) kw1) (first :: rest))
          by (apply HinL; eauto).
        pose proof (max_from_ge rest first _ Hd1) as Hge. rewrite Eb in Hge. simpl in Hge.
        apply HinL in Hb. destruct Hb as (kwb & Hinb & -> & _).
        specialize (Hmax db kwb Hinb). simpl. lia. }
      rewrite Htop.
      assert (Hlen : 2 <= length (filter (fun '(_, sc) => Nat.eqb sc (score (lower message) kw1))
                                   (first :: rest))).
      { apply (two_le_length _ (d1, score (lower message) kw1) (d2, score (lower message) kw1)).
        - apply filter_In. split; [apply HinL; eauto | apply Nat.eqb_refl].
        - apply filter_In. split; [apply HinL; exists kw2; rewrite Heq; auto | apply Nat.eqb_refl].
        - intros H. injection H as H. contradiction. }
      destruct (Nat.eqb (length _) 1) eqn:E; [apply Nat.eqb_eq in E; lia | reflexivity].
Qed.

Lemma classify_domain_phases_witness :
  let dk := [("finance", ["pay"]); ("travel", ["trip"])] in
  let llm := Scenarios.llm_answers "Travel" in
  NoDup (map fst dk) /\
  ((forall d kw, In (d, kw) dk -> 0 < score (lower "Pay for the trip") kw ->
     (forall d' kw', In (d', kw') dk -> d' <> d ->
        score (lower "Pay for the trip") kw' < score (lower "Pay for the trip") kw) ->
     classify_domain llm VALID "Pay for the trip" dk = (ret d, 0)) /\
  ((forall d kw, In (d, kw) dk -> score (lower "Pay for the trip") kw = 0) \/
   (exists d1 kw1 d2 kw2, In (d1, kw1) dk /\ In (d2, kw2) dk /\ d1 <> d2 /\
      0 < score (lower "Pay for the trip") kw1 /\
      score (lower "Pay for the trip") kw2 = score (lower "Pay for the trip") kw1 /\
      (forall d kw, In (d, kw) dk ->
         score (lower "Pay for the trip") kw <= score (lower "Pay for the trip") kw1)) ->
   classify_domain llm VALID "Pay for the trip" dk =
     ((r <- llm (classifier_messages "Pay for the trip" dk) ;;
       content <- Providers.content_str r ;;
       ret (scan VALID (lower (strip content)))), 1))).
Proof.
  intros dk llm.
  assert (Hnd : NoDup (map fst dk)).
  { constructor; [simpl; intros [H|[]]; discriminate H | constructor; [intros []|constructor]]. }
  split; [exact Hnd|].
  exact (classify_domain_phases llm VALID "Pay for the trip" dk Hnd).
Defined.

(** Claim C8 fails as stated: the scan does not pick the first valid token
    of the answer. Whatever the iteration order of the valid set, some
    answer "b a" naming two valid domains makes [classify_domain] return
    [a], the token that comes later in the text. *)
Lemma classify_scan_follows_set_order :
  ~ (exists order, Permutation order VALID /\
       forall a b, In a VALID -> In b VALID -> a <> b ->
         fst (classify_domain (Scenarios.llm_answers (b ++ " " ++ a)) order "hi" []) = ret b).
Proof.
  intros (order & Hp & H).
  assert (Hnd : NoDup order).
  { apply (Permutation_NoDup (Permutation_sym Hp)). unfold VALID.
    repeat constructor; simpl; intuition discriminate. }
  destruct order as [|x [|y rest]];
    [apply Permutation_length in Hp; discriminate | apply Permutation_length in Hp; discriminate |].
  assert (Hx : In x VALID) by (apply (Permutation_in _ Hp); left; reflexivity).
  assert (Hy : In y VALID) by (apply (Permutation_in _ Hp); right; left; reflexivity).
  assert (Hxy : x <> y).
  { intros <-. inversion Hnd as [|? ? Hnin]. apply Hnin. left. reflexivity. }
  specialize (H x y Hx Hy Hxy). simpl in Hx, Hy.
  destruct Hx as [<-|[<-|[<-|[<-|[<-|[<-|[<-|[]]]]]]]];
  destruct Hy as [<-|[<-|[<-|[<-|[<-|[<-|[<-|[]]]]]]]];
  first [exact (Hxy eq_refl) | vm_compute in H; discriminate H].
Qed.

Lemma dset_keys : forall {A} k (v : A) d x,
  In x (map fst (dset k v d)) -> x = k \/ In x (map fst d).
Proof.
  intros A k v d x. induction d as [|[k' v'] d IH]; simpl.
  - intros [H|[]]. auto.
  - destruct (String.eqb k k') eqn:E; simpl.
    + apply String.eqb_eq in E. subst k'. tauto.
    + intros [H|H]; [tauto|]. apply IH in H. tauto.
Qed.

Lemma build_scores_keys : forall msg dk x,
  In x (map fst (build_scores msg dk)) -> In x (map fst dk).
Proof.
  intros msg dk x. unfold build_scores.
  assert (G : forall l acc, In x (map fst (fold_left (fun scores '(domain, keywords) =>
              let sc := score msg keywords in
              if Nat.ltb 0 sc then dset domain sc scores else scores) l acc)) ->
              In x (map fst acc) \/ In x (map fst l)).
  { induction l as [|[d kw] l IH]; intros acc H; simpl in *; [tauto|].
    apply IH in H. destruct H as [H|H]; [|tauto].
    destruct (Nat.ltb 0 (score msg kw)); [|tauto].
    apply dset_keys in H. destruct H as [->|H]; tauto. }
  intros H. destruct (G dk [] H) as [[]|H']; exact H'.
Qed.

Lemma scan_in : forall order text, In (scan order text) order \/ scan order text = "schedule".
Proof.
  induction order as [|d order IH]; intros text; simpl; [auto|].
  destruct (contains d text); [auto|]. destruct (IH text); auto.
Qed.

(** [classify_domain] makes at most one LLM call, and what it returns is
    always a domain of the keyword table (with no LLM call), or a domain
    of the valid set or "schedule" (after one call): the model's free
    text never comes back as a domain. *)
Theorem classify_domain_range : forall llm order message dk d n,
  classify_domain llm order message dk = (ret d, n) ->
  (n = 0 /\ In d (map fst dk)) \/ (n = 1 /\ (In d order \/ d = "schedule")).
Proof.
  intros llm order message dk d n. unfold classify_domain. cbv zeta.
  assert (P2 : (r <- llm (classifier_messages message dk) ;;
                content <- Providers.content_str r ;;
                ret (scan order (lower (strip content))), 1) = (ret d, n) ->
               n = 1 /\ (In d order \/ d = "schedule")).
  { intros H. injection H as H <-. split; [reflexivity|].
    destruct (llm (classifier_messages message dk)) as [e|r]; [discriminate|].
    cbn [bind] in H. destruct (Providers.content_str r) as [e|c]; [discriminate|].
    cbn [bind] in H. unfold ret in H. injection H as <-. apply scan_in. }
  destruct (build_scores (lower message) dk) as [|first rest] eqn:Hb; [right; auto|].
  destruct (Nat.eqb _ 1); [|right; auto].
  intros H. injection H as <- <-. left. split; [reflexivity|].
  apply (build_scores_keys (lower message)). rewrite Hb.
  apply in_map. apply max_from_in.
Qed.

Lemma classify_domain_range_witness :
  classify_domain (Scenarios.llm_answers "Finance") VALID "hello" [("content", ["blog"])] = (ret "finance", 1) /\
  ((1 = 0 /\ In "finance" (map fst [("content", ["blog"])])) \/
   (1 = 1 /\ (In "finance" VALID \/ "finance" = "schedule"))).
Proof.
  assert (H : classify_domain (Scenarios.llm_answers "Finance") VALID "hello" [("content", ["blog"])]
              = (ret "finance", 1)) by (vm_compute; reflexivity).
  split; [exact H|]. exact (classify_domain_range _ _ _ _ _ _ H).
Defined.

End ClassifyFacts.

(** ** Providers *)

Module ProviderFacts.
Import Agent Providers.

Section Facts.

Variable http : request -> Exc json.
Variable json_loads : string -> Exc json.
Variable exn_str : exn -> string.

(** The error text of the [except] clause starts with the sentinel. *)
Lemma error_result_content : forall e,
  content_str (error_result exn_str e) = ret (sentinel ++ " " ++ exn_str e) /\
  startswith sentinel (sentinel ++ " " ++ exn_str e) = true /\
  pr_tool_calls (error_result exn_str e) = [].
Proof.
  intros e. split; [reflexivity|]. split; [apply AssistantFacts.startswith_app | reflexivity].
Qed.

Lemma chat_concrete : forall p key model messages tools max_tokens temperature,
  p = OpenAIProvider key model \/ p = GeminiProvider key model ->
  exists req,
    chat http json_loads exn_str p messages tools max_tokens temperature =
      (ret (attempt http json_loads exn_str req), [(p, messages, tools, max_tokens, temperature)]) /\
    (forall e, (r <- http req ;; parse_response json_loads r) = inl e ->
       attempt http json_loads exn_str req = error_result exn_str e).
Proof.
  intros p key model messages tools max_tokens temperature [-> | ->];
    eexists; (split; [reflexivity|]); intros e He; unfold attempt; rewrite He; reflexivity.
Qed.

(** Claim C7. A concrete provider's [chat] always returns a result, and
    when the request or the decoding fails with [e] that result is
    [{content: "AI 응답 오류: " ++ str e, tool_calls: []}], whose content
    starts with the sentinel. A [FallbackProvider] whose primary returns a
    result with text content [c] calls the secondary, with the same
    arguments, exactly when [c] starts with the sentinel and then returns
    the secondary's outcome unchanged; otherwise it returns the primary's
    result and the secondary is not called. *)
Theorem provider_errors_and_fallback :
  forall key model primary fb messages tools max_tokens temperature r c,
  fst (chat http json_loads exn_str primary messages tools max_tokens temperature) = ret r ->
  content_str r = ret c ->
  (forall p, p = OpenAIProvider key model \/ p = GeminiProvider key model ->
     exists req,
       chat http json_loads exn_str p messages tools max_tokens temperature =
         (ret (attempt http json_loads exn_str req),
          [(p, messages, tools, max_tokens, temperature)]) /\
       (forall e, (r <- http req ;; parse_response json_loads r) = inl e ->
          attempt http json_loads exn_str req = error_result exn_str e /\
          content_str (error_result exn_str e) = ret (sentinel ++ " " ++ exn_str e) /\
          startswith sentinel (sentinel ++ " " ++ exn_str e) = true /\
          pr_tool_calls (error_result exn_str e) = [])) /\
  (startswith sentinel c = true ->
     chat http json_loads exn_str (FallbackProvider primary (Some fb))
          messages tools max_tokens temperature =
       (fst (chat http json_loads exn_str fb messages tools max_tokens temperature),
        (FallbackProvider primary (Some fb), messages, tools, max_tokens, temperature)
          :: snd (chat http json_loads exn_str primary messages tools max_tokens temperature)
          ++ snd (chat http json_loads exn_str fb messages tools max_tokens temperature))%list) /\
  (startswith sentinel c = false ->
     chat http json_loads exn_str (FallbackProvider primary (Some fb))
          messages tools max_tokens temperature =
       (ret r,
        (FallbackProvider primary (Some fb), messages, tools, max_tokens, temperature)
          :: snd (chat http json_loads exn_str primary messages tools max_tokens temperature))).
Proof.
  intros key model primary fb messages tools max_tokens temperature r c Hr Hc.
  split; [|split].
  - intros p Hp.
    destruct (chat_concrete p key model messages tools max_tokens temperature Hp)
      as (req & Hch & He).
    exists req. split; [exact Hch|]. intros e Hf.
    split; [exact (He e Hf) | exact (error_result_content e)].
  - intros Hs. cbn [chat].
    destruct (chat http json_loads exn_str primary messages tools max_tokens temperature)
      as [r1 log1]. cbn [fst] in Hr. subst r1. cbn [snd].
    unfold ret; cbv beta iota. rewrite Hc. unfold ret; cbv beta iota. rewrite Hs.
    destruct (chat http json_loads exn_str fb messages tools max_tokens temperature).
    reflexivity.
  - intros Hs. cbn [chat].
    destruct (chat http json_loads exn_str primary messages tools max_tokens temperature)
      as [r1 log1]. cbn [fst] in Hr. subst r1. cbn [snd].
    unfold ret; cbv beta iota. rewrite Hc. unfold ret; cbv beta iota. rewrite Hs. reflexivity.
Qed.

End Facts.

Lemma provider_errors_and_fallback_witness :
  let http := fun _ : request => @raise json (URLError "timed out") in
  let json_loads := fun _ : string => @raise json JSONDecodeError in
  let exn_str := fun _ : exn => "<urlopen error timed out>" in
  let primary := OpenAIProvider "key" "gpt-4o-mini" in
  let fb := GeminiProvider "key2" "gemini-3-flash-preview" in
  let msgs := JArr [JObj [("role", JStr "user"); ("content", JStr "hi")]] in
  let r := error_result exn_str (URLError "timed out") in
  let c := sentinel ++ " " ++ "<urlopen error timed out>" in
  (fst (chat http json_loads exn_str primary msgs JNull (JNum 1500) (JNum (2 # 5))) = ret r /\
   content_str r = ret c) /\
  ((forall p, p = OpenAIProvider "key" "gpt-4o-mini" \/ p = GeminiProvider "key" "gpt-4o-mini" ->
     exists req,
       chat http json_loads exn_str p msgs JNull (JNum 1500) (JNum (2 # 5)) =
         (ret (attempt http json_loads exn_str req),
          [(p, msgs, JNull, JNum 1500, JNum (2 # 5))]) /\
       (forall e, (r <- http req ;; parse_response json_loads r) = inl e ->
          attempt http json_loads exn_str req = error_result exn_str e /\
          content_str (error_result exn_str e) = ret (sentinel ++ " " ++ exn_str e) /\
          startswith sentinel (sentinel ++ " " ++ exn_str e) = true /\
          pr_tool_calls (error_result exn_str e) = [])) /\
   (startswith sentinel c = true ->
     chat http json_loads exn_str (FallbackProvider primary (Some fb))
          msgs JNull (JNum 1500) (JNum (2 # 5)) =
       (fst (chat http json_loads exn_str fb msgs JNull (JNum 1500) (JNum (2 # 5))),
        (FallbackProvider primary (Some fb), msgs, JNull, JNum 1500, JNum (2 # 5))
          :: snd (chat http json_loads exn_str primary msgs JNull (JNum 1500) (JNum (2 # 5)))
          ++ snd (chat http json_loads exn_str fb msgs JNull (JNum 1500) (JNum (2 # 5))))%list) /\
   (startswith sentinel c = false ->
     chat http json_loads exn_str (FallbackProvider primary (Some fb))
          msgs JNull (JNum 1500) (JNum (2 # 5)) =
       (ret r,
        (FallbackProvider primary (Some fb), msgs, JNull, JNum 1500, JNum (2 # 5))
          :: snd (chat http json_loads exn_str primary msgs JNull (JNum 1500) (JNum (2 # 5)))))).
Proof.
  intros http json_loads exn_str primary fb msgs r c.
  assert (H1 : fst (chat http json_loads exn_str primary msgs JNull (JNum 1500) (JNum (2 # 5)))
               = ret r) by reflexivity.
  assert (H2 : content_str r = ret c) by reflexivity.
  split; [split; [exact H1 | exact H2]|].
  exact (provider_errors_and_fallback http json_loads exn_str "key" "gpt-4o-mini" primary fb
           msgs JNull (JNum 1500) (JNum (2 # 5)) r c H1 H2).
Defined.

Section Factory.

Variable http : request -> Exc json.
Variable json_loads : string -> Exc json.
Variable exn_str : exn -> string.

(** With the provider [get_provider] builds from the environment, one
    [chat] call sends one or two HTTP requests, exactly one when
    AI_FALLBACK_PROVIDER is unset or empty. The first goes to Gemini with
    GEMINI_API_KEY only when AI_PROVIDER is exactly "gemini", and to
    OpenAI with OPENAI_API_KEY otherwise (any other value included), with
    AI_MODEL or "gpt-4o-mini". *)
Theorem get_provider_requests : forall env messages tools max_tokens temperature,
  let log := snd (chat http json_loads exn_str (get_provider env)
                       messages tools max_tokens temperature) in
  let model := env_get env "AI_MODEL" "gpt-4o-mini" in
  1 <= length (filter sends_request log) <= 2 /\
  (env_get env "AI_FALLBACK_PROVIDER" "" = "" -> length (filter sends_request log) = 1) /\
  hd_error (filter sends_request log) =
    Some (if String.eqb (env_get env "AI_PROVIDER" "openai") "gemini"
          then GeminiProvider (env_get env "GEMINI_API_KEY" "") model
          else OpenAIProvider (env_get env "OPENAI_API_KEY" "") model,
          messages, tools, max_tokens, temperature).
Proof.
  intros env messages tools max_tokens temperature log model.
  unfold log, model, get_provider, _create_provider, get_ai_config, get_openai_key.
  cbn [cfg_provider cfg_model cfg_gemini_api_key cfg_fallback_provider cfg_fallback_model].
  destruct (String.eqb (env_get env "AI_FALLBACK_PROVIDER" "") "") eqn:Ef; cbn [negb].
  - destruct (String.eqb (env_get env "AI_PROVIDER" "openai") "gemini");
      simpl; repeat split; auto.
  - destruct (String.eqb (env_get env "AI_PROVIDER" "openai") "gemini");
      destruct (String.eqb (env_get env "AI_FALLBACK_PROVIDER" "") "gemini");
      cbn [chat]; unfold ret; cbv beta iota zeta;
      destruct (content_str _) as [e|c];
      try destruct (startswith sentinel c);
      cbn [chat snd fst filter sends_request length hd_error app negb];
      (split; [lia|]); (split; [intros H; rewrite H in Ef; discriminate Ef|]); reflexivity.
Qed.

End Factory.


End ProviderFacts.

(** ** Image URLs *)

Module ImagesFacts.
Import Images.

Section Facts.
Variable fetch : string -> string -> option (string * string).

Lemma resolve_each_no_token : forall fetch' urls,
  resolve_each fetch "" urls = resolve_each fetch' "" urls.
Proof.
  induction urls as [|u urls IH]; [reflexivity|]. cbn [resolve_each].
  rewrite IH. destruct (negb (truthy u)); [reflexivity|].
  destruct u; try reflexivity;
    destruct (startswith "data:" s); try reflexivity;
    destruct (contains "files.slack.com" s); reflexivity.
Qed.

Lemma resolve_each_raises : forall bot urls,
  Exists not_str urls -> resolve_each fetch bot urls = raise AttributeError.
Proof.
  intros bot. induction urls as [|u urls IH]; intros H; [inversion H|].
  cbn [resolve_each]. inversion H as [? ? (Ht & Hs) | ? ? Hex]; subst.
  - rewrite Ht. cbn [negb]. destruct u; try reflexivity. exfalso. exact (Hs s eq_refl).
  - rewrite (IH Hex). destruct (negb (truthy u)); [reflexivity|].
    destruct u; try reflexivity. cbv beta iota delta [bind].
    destruct (startswith "data:" s); [reflexivity|].
    destruct (contains "files.slack.com" s); [|reflexivity].
    destruct (String.eqb bot ""); [reflexivity|].
    destruct (_download_slack_image fetch s bot) as [d|]; [|reflexivity].
    destruct (String.eqb d ""); reflexivity.
Qed.

Lemma download_is_data : forall url bot d,
  _download_slack_image fetch url bot = Some d -> startswith "data:" d = true.
Proof.
  intros url bot d. unfold _download_slack_image.
  destruct (fetch url bot) as [[ct b64]|]; [|discriminate].
  intros H. injection H as <-. reflexivity.
Qed.

Lemma resolve_each_out : forall bot urls out,
  resolve_each fetch bot urls = ret out ->
  length out <= length urls /\
  Forall (fun s => startswith "data:" s = true \/ contains "files.slack.com" s = false) out.
Proof.
  intros bot. induction urls as [|u urls IH]; intros out H.
  - cbn in H. injection H as <-. auto.
  - cbn [resolve_each] in H. destruct (negb (truthy u)).
    + destruct (IH out H). simpl. split; [lia | assumption].
    + destruct u; try discriminate. cbv beta iota delta [bind] in H.
      destruct (resolve_each fetch bot urls) as [e|rest] eqn:Hr.
      { destruct (startswith "data:" s); [discriminate|].
        destruct (contains "files.slack.com" s); [|discriminate].
        destruct (String.eqb bot ""); [discriminate|].
        destruct (_download_slack_image fetch s bot) as [d|]; [|discriminate].
        destruct (String.eqb d ""); discriminate. }
      destruct (IH rest eq_refl) as (L & F).
      assert (Hr1 : forall r, (r = [] \/ exists x, r = [x] /\
                      (startswith "data:" x = true \/ contains "files.slack.com" x = false)) ->
                    inr (r ++ rest)%list = ret out ->
                    length out <= length (JStr s :: urls) /\
                    Forall (fun s => startswith "data:" s = true \/
                                     contains "files.slack.com" s = false) out).
      { intros r [-> | (x & -> & Hx)] Hout; injection Hout as <-; simpl.
        - split; [lia | exact F].
        - split; [lia | constructor; assumption]. }
      destruct (startswith "data:" s) eqn:Hd.
      * apply (Hr1 [s]); [right; eauto | exact H].
      * destruct (contains "files.slack.com" s) eqn:Hc.
        -- destruct (String.eqb bot ""); [apply (Hr1 []); auto|].
           destruct (_download_slack_image fetch s bot) as [d|] eqn:Hdl; [|apply (Hr1 []); auto].
           destruct (String.eqb d ""); [apply (Hr1 []); auto|].
           apply (Hr1 [d]); [right; exists d; split; [reflexivity|left] | exact H].
           exact (download_is_data _ _ _ Hdl).
        -- apply (Hr1 [s]); [right; eauto | exact H].
Qed.

(** [resolve_image_urls] returns at most five URLs, each one either a
    "data:" URI or a URL that does not contain "files.slack.com": a
    private Slack URL is never passed on as is. *)
Theorem resolve_image_urls_output : forall urls bot out,
  resolve_image_urls fetch urls bot = ret out ->
  length out <= 5 /\
  Forall (fun s => startswith "data:" s = true \/ contains "files.slack.com" s = false) out.
Proof.
  intros urls bot out. unfold resolve_image_urls.
  destruct urls as [|u urls].
  - intros H. unfold ret in H. injection H as <-. split; [simpl; lia | constructor].
  - intros H. destruct (resolve_each_out bot _ out H) as (L & F).
    split; [|exact F]. rewrite length_firstn in L. lia.
Qed.

(** [resolve_image_urls] looks at the first five entries only; without a
    bot token it downloads nothing (its result does not depend on the
    downloader); and a truthy entry that is not a string among the first
    five makes it raise [AttributeError]. *)
Theorem resolve_image_urls_inputs : forall urls,
  (forall bot, resolve_image_urls fetch urls bot = resolve_image_urls fetch (firstn 5 urls) bot) /\
  (forall fetch', resolve_image_urls fetch urls "" = resolve_image_urls fetch' urls "") /\
  (forall bot, Exists not_str (firstn 5 urls) ->
     resolve_image_urls fetch urls bot = raise AttributeError).
Proof.
  intros urls. split; [|split].
  - intros bot. unfold resolve_image_urls. rewrite firstn_firstn.
    destruct urls; reflexivity.
  - intros fetch'. unfold resolve_image_urls. destruct urls; [reflexivity|].
    apply resolve_each_no_token.
  - intros bot H. unfold resolve_image_urls. destruct urls; [inversion H|].
    apply resolve_each_raises. exact H.
Qed.

End Facts.

Lemma resolve_image_urls_output_witness :
  resolve_image_urls (fun _ _ => Some ("image/png", "AAAA"))
    [JStr "https://files.slack.com/files-pri/T1-F1/a.png"; JStr ""; JStr "https://x.org/b.jpg"]
    "xoxb-1" = ret ["data:image/png;base64,AAAA"; "https://x.org/b.jpg"] /\
  length ["data:image/png;base64,AAAA"; "https://x.org/b.jpg"] <= 5 /\
  Forall (fun s => startswith "data:" s = true \/ contains "files.slack.com" s = false)
    ["data:image/png;base64,AAAA"; "https://x.org/b.jpg"].
Proof.
  assert (H : resolve_image_urls (fun _ _ => Some ("image/png", "AAAA"))
    [JStr "https://files.slack.com/files-pri/T1-F1/a.png"; JStr ""; JStr "https://x.org/b.jpg"]
    "xoxb-1" = ret ["data:image/png;base64,AAAA"; "https://x.org/b.jpg"]) by (vm_compute; reflexivity).
  split; [exact H|]. exact (resolve_image_urls_output _ _ _ _ H).
Defined.

End ImagesFacts.

Module AgentFacts.
Import Agent.

Section Facts.
Variable provider : nat -> list message -> presult.
Variable tool_executor : nat -> json -> json -> string.
Variable strip_markdown_body : string -> string.

Lemma exec_tools_keeps : forall tcs st,
  let st' := exec_tools tool_executor tcs st in
  ls_provider_calls st' = ls_provider_calls st /\ ls_result st' = ls_result st /\
  ls_events st' = ls_events st.
Proof.
  induction tcs as [|tc tcs IH]; intros st; simpl; [auto|].
  destruct (IH (mk_ls (ls_messages st ++ [MsgTool (tc_id tc)
              (tool_executor (length (ls_exec_calls st)) (tc_name tc) (tc_args tc))])%list
              (ls_events st) (ls_memory st) (ls_provider_calls st)
              (ls_exec_calls st ++ [(tc_name tc, tc_args tc)])%list (ls_result st)))
    as (H1 & H2 & H3).
  simpl in *. auto.
Qed.

Lemma handle_learn_rule_keeps : forall domain now result tcs st,
  let st' := snd (handle_learn_rule strip_markdown_body domain now result tcs st) in
  ls_provider_calls st' = ls_provider_calls st /\ ls_result st' = ls_result st /\
  ls_exec_calls st' = ls_exec_calls st /\ ls_messages st' = ls_messages st.
Proof.
  intros domain now result tcs st. unfold handle_learn_rule.
  destruct (find is_learn tcs) as [tc|]; simpl; [|auto].
  destruct (py_get (tc_args tc) "rule" (JStr "")) as [e|rule_text]; simpl; [auto|].
  destruct (py_get (tc_args tc) "category" (JStr "general")) as [e|cat]; simpl; [auto|].
  destruct (Memory.add_rule _ _ _ _ _) as [ar mem'].
  destruct (filter _ tcs); simpl; auto.
Qed.

Lemma round_keeps : forall domain now st,
  let st' := snd (round provider tool_executor strip_markdown_body domain now st) in
  ls_provider_calls st' = S (ls_provider_calls st) /\
  ls_result st' = Some (provider (ls_provider_calls st) (ls_messages st)).
Proof.
  intros domain now st. unfold round.
  set (result := provider (ls_provider_calls st) (ls_messages st)).
  destruct (pr_tool_calls result) as [|tc tcs] eqn:Htc; simpl; [auto|].
  set (st1 := mk_ls (ls_messages st) (ls_events st) (ls_memory st)
                    (S (ls_provider_calls st)) (ls_exec_calls st) (Some result)).
  pose proof (handle_learn_rule_keeps domain now result (tc :: tcs) st1) as (H1 & H2 & _).
  destruct (handle_learn_rule strip_markdown_body domain now result (tc :: tcs) st1)
    as [[e|[cr|tcs']] st2]; simpl in *; auto.
  destruct (handle_user_choice strip_markdown_body result tcs' (ls_events st2)); simpl; auto.
  match goal with |- context [exec_tools _ tcs' ?s] =>
    pose proof (exec_tools_keeps tcs' s) as (E1 & E2 & _) end.
  simpl in *. rewrite E1, E2. auto.
Qed.

Lemma loop_bound : forall n domain now st,
  let '(o, st') := loop provider tool_executor strip_markdown_body n domain now st in
  ls_provider_calls st' <= ls_provider_calls st + n /\
  (o = Next ->
     ls_provider_calls st' = ls_provider_calls st + n /\
     (n = 0 -> st' = st) /\
     (0 < n -> exists ms, ls_result st' = Some (provider (pred (ls_provider_calls st')) ms))).
Proof.
  induction n as [|n IH]; intros domain now st; simpl.
  - split; [lia|]. intros _. split; [lia|]. split; [auto|]. intros; lia.
  - pose proof (round_keeps domain now st) as (R1 & R2).
    destruct (round provider tool_executor strip_markdown_body domain now st) as [[r|] st1]
      eqn:Hr; simpl in R1, R2.
    + split; [lia|]. discriminate.
    + specialize (IH domain now st1).
      destruct (loop provider tool_executor strip_markdown_body n domain now st1) as [o st'].
      destruct IH as (B1 & B2). split; [lia|].
      intros Ho. destruct (B2 Ho) as (C1 & C2 & C3).
      split; [lia|]. split; [discriminate|]. intros _.
      destruct n as [|n].
      * rewrite (C2 eq_refl). exists (ls_messages st). rewrite R2, R1. reflexivity.
      * apply C3. lia.
Qed.

(** Claim C1. Whatever the provider answers and whatever the tool executor
    returns, [chat_with_tools_multi] makes at most [max_tool_rounds] provider
    calls (the function is total, so it halts). When the rounds run out
    without a terminal branch, the result is non-interactive and built from
    the last provider result's content, or from the fixed limit message when
    that result has no content; with [max_tool_rounds = 0] the variable
    [result] is never bound and Python raises [UnboundLocalError]. *)
Theorem chat_with_tools_multi_bounded :
  forall system_prompt messages max_tool_rounds domain now mem,
  let '(r, st) := chat_with_tools_multi provider tool_executor strip_markdown_body
                    system_prompt messages max_tool_rounds domain now mem in
  ls_provider_calls st <= max_tool_rounds /\
  (fst (loop provider tool_executor strip_markdown_body max_tool_rounds domain now
          (init_state system_prompt messages mem)) = Next ->
     (max_tool_rounds = 0 /\ r = raise UnboundLocalError) \/
     (0 < max_tool_rounds /\ ls_provider_calls st = max_tool_rounds /\
      exists ms last, last = provider (pred max_tool_rounds) ms /\
        ls_result st = Some last /\
        r = (c <- strip_markdown strip_markdown_body (content_or last (JStr LIMIT_MSG)) ;;
             ret (mk_cr c None (ls_events st))))).
Proof.
  intros system_prompt messages n domain now mem.
  unfold chat_with_tools_multi.
  pose proof (loop_bound n domain now (init_state system_prompt messages mem)) as HB.
  destruct (loop provider tool_executor strip_markdown_body n domain now
              (init_state system_prompt messages mem)) as [o st] eqn:Hl.
  simpl in HB. destruct HB as (B1 & B2).
  destruct o as [r|]; simpl.
  - split; [lia|]. discriminate.
  - destruct (B2 eq_refl) as (C1 & C2 & C3).
    destruct n as [|n].
    + rewrite (C2 eq_refl). simpl. split; [lia|]. intros _. left. auto.
    + destruct (C3 ltac:(lia)) as (ms & Hres). rewrite C1 in Hres. simpl in Hres.
      rewrite Hres. split; [lia|]. intros _. right.
      split; [lia|]. split; [lia|]. exists ms, (provider n ms). auto.
Qed.

Lemma filter_learn_id : forall tcs,
  find is_learn tcs = None -> filter (fun t => negb (is_learn t)) tcs = tcs.
Proof.
  induction tcs as [|t tcs IH]; simpl; [auto|].
  destruct (is_learn t); simpl; [discriminate|]. intros H. f_equal. auto.
Qed.

Lemma strip_or_text : forall result q,
  content_text_ok result = true ->
  exists s, strip_markdown strip_markdown_body
              (py_or (content_or result (JStr "")) (JStr q)) = inr s.
Proof.
  intros result q H. unfold content_text_ok, content_or, py_or, strip_markdown in *.
  destruct (pr_content result) as [c|]; [destruct c; try discriminate|]; simpl;
  repeat (match goal with |- context [if ?b then _ else _] => destruct b end; simpl);
  eexists; reflexivity.
Qed.

Lemma handle_user_choice_spec : forall result tcs events tc kv q opts field ptool pargs,
  content_text_ok result = true ->
  find is_choice tcs = Some tc -> tc_args tc = JObj kv ->
  dget "question" kv = Some (JStr q) -> dget "options" kv = Some (JArr opts) ->
  dget "field_name" kv = Some (JStr field) -> dget "pending_tool" kv = Some (JStr ptool) ->
  dget "pending_args" kv = Some pargs ->
  exists response,
    handle_user_choice strip_markdown_body result tcs events =
    Some (ret (mk_cr response
                 (Some (mk_inter (JStr q) (JArr (firstn 5 opts)) (ptool ++ "_" ++ field)
                          (JObj [("tool", JStr ptool); ("args", pargs);
                                 ("field_name", JStr field)])))
                 events)).
Proof.
  intros result tcs events tc kv q opts field ptool pargs Hc Hf Hkv Hq Ho Hfi Hp Hpa.
  unfold handle_user_choice. rewrite Hf, Hkv.
  destruct (strip_or_text result q Hc) as (s & Hs).
  exists s. simpl. rewrite Hq. simpl. rewrite Hs. simpl.
  rewrite Ho, Hfi, Hp, Hpa. reflexivity.
Qed.

Lemma loop_S_finished : forall n domain now st r st',
  round provider tool_executor strip_markdown_body domain now st = (Finished r, st') ->
  loop provider tool_executor strip_markdown_body (S n) domain now st = (Finished r, st').
Proof. intros n domain now st r st' H. cbn [loop]. rewrite H. reflexivity. Qed.

Lemma round_choice : forall domain now st tc kv q opts field ptool pargs,
  let result := provider (ls_provider_calls st) (ls_messages st) in
  pr_tool_calls result <> [] ->
  content_text_ok result = true ->
  args_are_dicts (pr_tool_calls result) = true ->
  find is_choice (filter (fun t => negb (is_learn t)) (pr_tool_calls result)) = Some tc ->
  tc_args tc = JObj kv ->
  dget "question" kv = Some (JStr q) -> dget "options" kv = Some (JArr opts) ->
  dget "field_name" kv = Some (JStr field) -> dget "pending_tool" kv = Some (JStr ptool) ->
  dget "pending_args" kv = Some pargs ->
  exists response st',
    round provider tool_executor strip_markdown_body domain now st =
      (Finished (ret (mk_cr response
                        (Some (mk_inter (JStr q) (JArr (firstn 5 opts)) (ptool ++ "_" ++ field)
                                 (JObj [("tool", JStr ptool); ("args", pargs);
                                        ("field_name", JStr field)])))
                        (ls_events st'))), st') /\
    ls_provider_calls st' = S (ls_provider_calls st) /\
    ls_exec_calls st' = ls_exec_calls st.
Proof.
  intros domain now st tc kv q opts field ptool pargs result
    Hne Hc Hd Hf Hkv Hq Ho Hfi Hp Hpa.
  unfold round. fold result.
  destruct (pr_tool_calls result) as [|tc0 tcs] eqn:Htc; [congruence|].
  unfold handle_learn_rule.
  destruct (find is_learn (tc0 :: tcs)) as [tcl|] eqn:Hl.
  - apply find_some in Hl. destruct Hl as (Hin & _).
    unfold args_are_dicts in Hd. rewrite forallb_forall in Hd.
    specialize (Hd tcl Hin).
    destruct (tc_args tcl) as [| | | | |kvl] eqn:Ha; try discriminate.
    cbn [py_get ret].
    match goal with |- context [Memory.add_rule ?a ?b ?c ?d ?e] =>
      destruct (Memory.add_rule a b c d e) as [ar mem'] end.
    destruct (filter (fun t => negb (is_learn t)) (tc0 :: tcs)) as [|t ts] eqn:Hfl;
      [discriminate|].
    cbn [ret].
    match goal with |- context [handle_user_choice _ _ (t :: ts) ?ev] =>
      destruct (handle_user_choice_spec result (t :: ts) ev
                  tc kv q opts field ptool pargs Hc Hf Hkv Hq Ho Hfi Hp Hpa) as (resp & Hr)
    end.
    rewrite Hr. eexists; eexists; split; [reflexivity|]. cbn. auto.
  - rewrite (filter_learn_id _ Hl) in Hf.
    cbn [ret].
    match goal with |- context [handle_user_choice _ _ (tc0 :: tcs) ?ev] =>
      destruct (handle_user_choice_spec result (tc0 :: tcs) ev
                  tc kv q opts field ptool pargs Hc Hf Hkv Hq Ho Hfi Hp Hpa) as (resp & Hr)
    end.
    rewrite Hr. eexists; eexists; split; [reflexivity|]. cbn. auto.
Qed.

(** Claim C2. In a round whose batch, once the learn_rule calls are
    removed, holds a request_user_choice call whose arguments have the
    fields the tool schema requires, the loop returns at once: exactly one
    more provider call, no tool executed, and the interactive payload
    carries the question, the first 5 options, the prefix
    [pending_tool ++ "_" ++ field_name] and the pending action
    [{tool, args, field_name}] taken from the call's arguments. *)
Theorem user_choice_short_circuits :
  forall n domain now st tc kv q opts field ptool pargs,
  let result := provider (ls_provider_calls st) (ls_messages st) in
  pr_tool_calls result <> [] ->
  content_text_ok result = true ->
  args_are_dicts (pr_tool_calls result) = true ->
  find is_choice (filter (fun t => negb (is_learn t)) (pr_tool_calls result)) = Some tc ->
  tc_args tc = JObj kv ->
  dget "question" kv = Some (JStr q) -> dget "options" kv = Some (JArr opts) ->
  dget "field_name" kv = Some (JStr field) -> dget "pending_tool" kv = Some (JStr ptool) ->
  dget "pending_args" kv = Some pargs ->
  exists response st',
    loop provider tool_executor strip_markdown_body (S n) domain now st =
      (Finished (ret (mk_cr response
                        (Some (mk_inter (JStr q) (JArr (firstn 5 opts)) (ptool ++ "_" ++ field)
                                 (JObj [("tool", JStr ptool); ("args", pargs);
                                        ("field_name", JStr field)])))
                        (ls_events st'))), st') /\
    ls_provider_calls st' = S (ls_provider_calls st) /\
    ls_exec_calls st' = ls_exec_calls st.
Proof.
  intros n domain now st tc kv q opts field ptool pargs result
    Hne Hc Hd Hf Hkv Hq Ho Hfi Hp Hpa.
  destruct (round_choice domain now st tc kv q opts field ptool pargs
              Hne Hc Hd Hf Hkv Hq Ho Hfi Hp Hpa) as (resp & st' & Hr & H1 & H2).
  exists resp, st'. split; [|auto].
  apply loop_S_finished. exact Hr.
Qed.






End Facts.

Import Scenarios.

(** Claim C3. With a batch of two learn_rule calls (rules "A" and "B") on an
    empty memory, only the first call is executed: the domain ends up with
    one rule, one learning event is recorded, and the turn ends after one
    provider call. The second rule is dropped. *)
Theorem learn_rule_batch_runs_first_only :
  let '(r, st) := chat_with_tools_multi two_rules_provider ok_executor no_markdown
                    "system" [] 3 "finance" 0 Memory.MAbsent in
  Memory.rule_count (ls_memory st) "finance" = 1 /\
  map le_rule (ls_events st) = [JStr "A"] /\
  ls_provider_calls st = 1 /\ ls_exec_calls st = [] /\
  exists response, r = ret (mk_cr response None (ls_events st)).
Proof.
  vm_compute. repeat split. eexists. reflexivity.
Qed.

Lemma user_choice_short_circuits_witness :
  exists response st',
    loop choice_provider ok_executor no_markdown 3 "schedule" 0
         (init_state "system" [] Memory.MAbsent) =
      (Finished (ret (mk_cr response
                        (Some (mk_inter (JStr "which day?")
                                 (JArr (firstn 5 [JStr "mon"; JStr "tue"])) ("book" ++ "_" ++ "day")
                                 (JObj [("tool", JStr "book");
                                        ("args", JObj [("title", JStr "meeting")]);
                                        ("field_name", JStr "day")])))
                        (ls_events st'))), st') /\
    ls_provider_calls st' = S (ls_provider_calls (init_state "system" [] Memory.MAbsent)) /\
    ls_exec_calls st' = ls_exec_calls (init_state "system" [] Memory.MAbsent).
Proof.
  apply (user_choice_short_circuits choice_provider ok_executor no_markdown 2 "schedule" 0
           (init_state "system" [] Memory.MAbsent) choice_call
           [("question", JStr "which day?");
            ("options", JArr [JStr "mon"; JStr "tue"]);
            ("field_name", JStr "day");
            ("pending_tool", JStr "book");
            ("pending_args", JObj [("title", JStr "meeting")])]);
    simpl; first [discriminate | reflexivity].
Defined.

End AgentFacts.
